(** * Vox: the decision stack and the session history of [App.jsx]

    [src/ai-voice-web/src/App.jsx] holds three revisions of the same React
    component.  The decision stack of [handleAnalyze] (reasons, base verdict,
    final verdict) is the same text in all three; the risk scoring differs:
    the second revision (lines 822-859) has the two-tier score with the hard
    rule, the first and the third (lines 129-135 and 1711-1718) the plain 0-3
    count.  [handleDownloadHistory] is the same in the two revisions that
    have it.

    JavaScript numbers are IEEE 754 binary64 values, so they are modelled by
    Rocq's primitive floats: [<] is [PrimFloat.ltb], [>=] is [PrimFloat.leb]
    with its arguments swapped, and every comparison with NaN is false. *)

From Stdlib Require Import ZArith NArith List String Ascii Bool Lia.
From Stdlib Require Import Floats DecimalString DecimalN.
Import ListNotations.

#[local] Set Warnings "-inexact-float".
#[local] Open Scope string_scope.
#[local] Open Scope float_scope.

(** ** The JavaScript values the component reads *)

Module JS.

(** A property of the parsed JSON reply: missing ([undefined]), [null], or
    a value of the type the backend documents for it. *)
Inductive field (A : Type) : Type :=
| Absent : field A
| Null : field A
| Val : A -> field A.
Arguments Absent {A}.
Arguments Null {A}.
Arguments Val {A} _.

(** [v ?? d] *)
Definition coalesce {A : Type} (v : field A) (d : A) : A :=
  match v with
  | Val a => a
  | Absent | Null => d
  end.

(** [v || ""] on a string property: [undefined], [null] and the empty
    string are falsy. *)
Definition or_empty (v : field string) : string :=
  match v with
  | Val s => s
  | Absent | Null => ""
  end.

(** Truthiness of a boolean property, as [v && ...] tests it. *)
Definition truthy (v : field bool) : bool :=
  match v with
  | Val b => b
  | Absent | Null => false
  end.

(** The property is [undefined] or [null]. *)
Definition missing {A : Type} (v : field A) : bool :=
  match v with
  | Val _ => false
  | Absent | Null => true
  end.

(** [v !== null]: [undefined] is not [null]. *)
Definition not_null {A : Type} (v : field A) : bool :=
  match v with
  | Null => false
  | Absent | Val _ => true
  end.

(** ToNumber, applied by [<] to its left operand: [undefined] is NaN,
    [null] is [+0]. *)
Definition ToNumber (v : field float) : float :=
  match v with
  | Absent => nan
  | Null => 0
  | Val x => x
  end.

(** [Number(x)] of a number. *)
Definition Number (x : float) : float := x.

(** [a > b] and [a >= b] on numbers, next to [a <? b] for [a < b]. *)
Notation "a >? b" := (PrimFloat.ltb b a)
  (at level 70, no associativity) : float_scope.
Notation "a >=? b" := (PrimFloat.leb b a)
  (at level 70, no associativity) : float_scope.

(** [v < b] for a property [v] and a number [b]. *)
Definition field_lt (v : field float) (b : float) : bool :=
  ToNumber v <? b.

(** ToString of a non-negative integer, as [Array.prototype.join] and
    template literals apply it. *)
Definition decimal (n : N) : string :=
  NilZero.string_of_uint (N.to_uint n).

(** [parts.join(sep)] on an array of strings. *)
Fixpoint join (sep : string) (parts : list string) : string :=
  match parts with
  | [] => ""
  | [p] => p
  | p :: rest => p ++ sep ++ join sep rest
  end.

(** [n] copies of the code unit [c]. *)
Fixpoint repeat_char (c : ascii) (n : nat) : string :=
  match n with
  | O => ""
  | S k => String c (repeat_char c k)
  end.

(** The integer [n] for which [n / 10^f - x] is as close to zero as
    possible, the larger one when there are two, for the finite
    non-negative [x = m * 2^e]. *)
Definition nearest_scaled (f : nat) (m : positive) (e : Z) : N :=
  let scale := (10 ^ Z.of_nat f)%Z in
  if (0 <=? e)%Z
  then Z.to_N (Z.pos m * 2 ^ e * scale)
  else Z.to_N ((2 * Z.pos m * scale + 2 ^ (- e)) / 2 ^ (1 - e)).

(** The last steps of Number.prototype.toFixed: the digits of [n], padded
    on the left with zeros to [f + 1] characters, with a point before the
    last [f]. *)
Definition place_point (f : nat) (n : N) : string :=
  let m := decimal n in
  let k := String.length m in
  let m := if (k <=? f)%nat then repeat_char "0" (f + 1 - k) ++ m else m in
  let k := String.length m in
  if (f =? 0)%nat then m
  else substring 0 (k - f) m ++ "." ++ substring (k - f) f m.

(** The numbers toFixed prints in fixed notation: the finite ones of
    magnitude below [10^21], every probability among them. *)
Definition fixedNotation (x : float) : bool := abs x <? 1e21.

Section ToFixed.

(** Number::toString, which toFixed falls back on for magnitudes of
    [10^21] and more; it belongs to the runtime. *)
Variable NumberToString : float -> string.

(** [x.toFixed(f)] for [f] up to 100: a value that is not finite is
    printed by name; otherwise the sign is split off and the magnitude is
    printed in fixed notation when it is below [10^21]. *)
Definition toFixed (f : nat) (x : float) : string :=
  if is_nan x then "NaN"
  else if is_infinity x then (if x <? 0 then "-Infinity" else "Infinity")
  else
    let s := if x <? 0 then "-" else "" in
    let x := abs x in
    if x >=? 1e21 then s ++ NumberToString x
    else
      match Prim2SF x with
      | S754_finite _ m e => s ++ place_point f (nearest_scaled f m e)
      | _ => s ++ place_point f 0%N
      end.

End ToFixed.

End JS.
Import JS.

(** ** The component's state and what it reads *)

(** The reply of the scoring backend, [data] in [handleAnalyze]; the
    properties the decision stack does not read are left out. *)
Module Data.
Record t : Type := {
  prob_real : field float;
  prob_fake : field float;
  verdict : field string;
  iso_score : field float;
  similarity : field float;
  has_enrollment : field bool
}.
End Data.

(** One row of the session history. *)
Module Entry.
Record t : Type := {
  file : string;
  verdict : string;
  probReal : float;
  probFake : float;
  risk : string
}.
End Entry.

(** [merged], the object handed to [setResult]: the spread of [data] with
    [prob_real] and [prob_fake] overwritten, and the front end's own keys. *)
Module Merged.
Record t : Type := {
  data : Data.t;
  verdict_frontend : string;
  risk_level_frontend : string;
  reasons : list string;
  file_name : string;
  similarity_threshold_used : float;
  anomaly_threshold_used : float
}.
End Merged.

(** The [useState] cells the two handlers read or write; a selected [File]
    is kept by its name. *)
Module State.
Record t : Type := {
  file : option string;
  loading : bool;
  similarityThr : float;
  anomalyThr : float;
  result : option Merged.t;
  history : list Entry.t
}.

(** The state of a freshly mounted component. *)
Definition initial : t :=
  {| file := None; loading := false; similarityThr := 0.8;
     anomalyThr := 0.0; result := None; history := [] |}.

Definition setLoading (b : bool) (st : t) : t :=
  {| file := file st; loading := b;
     similarityThr := similarityThr st; anomalyThr := anomalyThr st;
     result := result st; history := history st |}.

Definition setResult (m : Merged.t) (st : t) : t :=
  {| file := file st; loading := loading st;
     similarityThr := similarityThr st; anomalyThr := anomalyThr st;
     result := Some m; history := history st |}.

(** [setHistory] with an updater function. *)
Definition setHistory (f : list Entry.t -> list Entry.t) (st : t) : t :=
  {| file := file st; loading := loading st;
     similarityThr := similarityThr st; anomalyThr := anomalyThr st;
     result := result st; history := f (history st) |}.
End State.

(** What a handler does besides updating the state. *)
Inductive Effect : Type :=
| alert (message : string)
| console_error (message : string)
| download (name type content : string).

(** How [fetch] and [res.json()] end: a rejection, or a reply with its
    [ok] flag, its status, and a body that either fails to parse or is the
    parsed [data]. *)
Inductive Fetched : Type :=
| Rejected (message : string)
| Replied (ok : bool) (status : N) (body : string + Data.t).

(** ** The specification's words, to set the code against *)

Module Spec.

(** "Add 2 if spoofProbabilityReal < 0.5; else add 1 if
    spoofProbabilityReal < 0.75; else add 0.  Add 1 if the anomaly check
    failed.  Add 1 if the identity-mismatch check failed." *)
Definition riskScore (spoofProbabilityReal : float)
    (anomalyFailed mismatchFailed : bool) : N :=
  let riskScore := 0%N in
  let riskScore :=
    if spoofProbabilityReal <? 0.5 then (riskScore + 2)%N
    else if spoofProbabilityReal <? 0.75 then (riskScore + 1)%N
    else (riskScore + 0)%N in
  let riskScore := if anomalyFailed then (riskScore + 1)%N else riskScore in
  let riskScore := if mismatchFailed then (riskScore + 1)%N else riskScore in
  riskScore.

(** "riskTier = Low if riskScore <= 1; Medium if riskScore == 2; High if
    riskScore >= 3." *)
Definition riskTier (riskScore : N) (tier : string) : Prop :=
  ((riskScore <= 1)%N -> tier = "Low")
  /\ (riskScore = 2%N -> tier = "Medium")
  /\ ((3 <= riskScore)%N -> tier = "High").

(** How many of the three checks failed. *)
Definition failed (identityMismatch anomaly spoofProbability : bool) : nat :=
  (if identityMismatch then 1 else 0) + (if anomaly then 1 else 0)
  + (if spoofProbability then 1 else 0).

(** A decimal digit, and a string of decimal digits. *)
Definition digit (c : ascii) : bool :=
  ((48 <=? nat_of_ascii c) && (nat_of_ascii c <=? 57))%nat.

Fixpoint digits (s : string) : bool :=
  match s with
  | EmptyString => true
  | String c rest => digit c && digits rest
  end.

(** "Formatted to [f] decimal places": an optional minus sign, at least
    one digit, a point, and exactly [f] digits. *)
Definition fixedDecimals (f : nat) (s : string) : Prop :=
  exists sign whole fraction : string,
    s = sign ++ whole ++ "." ++ fraction
    /\ (sign = "" \/ sign = "-")
    /\ whole <> "" /\ digits whole = true
    /\ digits fraction = true /\ String.length fraction = f.

(** The number a string of decimal digits stands for; no number when a
    character is not a digit. *)
Definition readDigits (s : string) : option N :=
  option_map N.of_uint (NilEmpty.uint_of_string s).

(** [n] is the integer nearest to [m * 2^e * 10^f], the larger one of two
    that are equally near: [n - 1/2 <= m * 2^e * 10^f < n + 1/2], doubled
    and with each power of two on the side where its exponent is not
    negative. *)
Definition nearest (f : nat) (m : positive) (e : Z) (n : N) : Prop :=
  ((2 * Z.of_N n - 1) * 2 ^ Z.max 0 (- e)
   <= 2 * Z.pos m * 2 ^ Z.max 0 e * 10 ^ Z.of_nat f
   < (2 * Z.of_N n + 1) * 2 ^ Z.max 0 (- e))%Z.

(** [n] is the integer nearest to [|x| * 10^f] for the finite binary64
    value [x], taken exactly. *)
Definition nearestTo (f : nat) (x : float) (n : N) : Prop :=
  match Prim2SF x with
  | S754_zero _ => n = 0%N
  | S754_finite _ m e => nearest f m e n
  | S754_infinity _ | S754_nan => False
  end.

(** "[x] formatted to exactly [f] decimal places": a minus sign when [x]
    is below zero, at least one digit, a point and [f] digits, the digits
    together being the integer nearest to [|x| * 10^f]. *)
Definition printedFixed (f : nat) (x : float) (s : string) : Prop :=
  exists (whole fraction : string) (n : N),
    s = (if x <? 0 then "-" else "") ++ whole ++ "." ++ fraction
    /\ whole <> "" /\ String.length fraction = f
    /\ readDigits (whole ++ fraction) = Some n
    /\ nearestTo f x n.

End Spec.

(** ** Concrete replies and states, evaluated further down *)

Module Samples.

(** Lower-casing of the letters [A]-[Z]; on such strings it is what
    String.prototype.toLowerCase does. *)
Definition lower (c : ascii) : ascii :=
  let n := nat_of_ascii c in
  if ((65 <=? n) && (n <=? 90))%nat then ascii_of_nat (n + 32) else c.

Fixpoint asciiLower (s : string) : string :=
  match s with
  | EmptyString => EmptyString
  | String c rest => String (lower c) (asciiLower rest)
  end.

(** The samples format probabilities only, so what Number::toString
    prints for huge magnitudes is never asked for. *)
Definition noHugeNumbers (x : float) : string := "".

(** The backend calls the sample real, with [prob_fake] above 0.6. *)
Definition realButLikelyFake : Data.t :=
  {| Data.prob_real := Val 0.9; Data.prob_fake := Val 0.7;
     Data.verdict := Val "real"; Data.iso_score := Val 0.5;
     Data.similarity := Null; Data.has_enrollment := Val false |}.

(** The backend calls the sample fake, with [prob_fake] above 0.6. *)
Definition fake : Data.t :=
  {| Data.prob_real := Val 0.3; Data.prob_fake := Val 0.7;
     Data.verdict := Val "FAKE"; Data.iso_score := Val 0.5;
     Data.similarity := Null; Data.has_enrollment := Val false |}.

(** Scenario 3 of the specification: all three checks fail. *)
Definition allFail : Data.t :=
  {| Data.prob_real := Val 0.55; Data.prob_fake := Val 0.45;
     Data.verdict := Val "real"; Data.iso_score := Val (-0.2);
     Data.similarity := Val 0.7; Data.has_enrollment := Val true |}.

(** A reply without the two probabilities. *)
Definition noProbabilities : Data.t :=
  {| Data.prob_real := Absent; Data.prob_fake := Null;
     Data.verdict := Val "real"; Data.iso_score := Null;
     Data.similarity := Null; Data.has_enrollment := Val false |}.

(** A reply without anomaly score and without enrollment. *)
Definition bare : Data.t :=
  {| Data.prob_real := Val 0.9; Data.prob_fake := Val 0.1;
     Data.verdict := Val "real"; Data.iso_score := Null;
     Data.similarity := Val 0.1; Data.has_enrollment := Val false |}.

Definition selected (name : string) : State.t :=
  {| State.file := Some name; State.loading := false;
     State.similarityThr := 0.8; State.anomalyThr := 0.0;
     State.result := None; State.history := [] |}.

(** A history of two rows, the newer one first. *)
Definition twoRows : list Entry.t :=
  [ {| Entry.file := "b.wav"; Entry.verdict := "REJECT";
       Entry.probReal := 0.3; Entry.probFake := 0.7;
       Entry.risk := "High" |};
    {| Entry.file := "a.wav"; Entry.verdict := "ACCEPT";
       Entry.probReal := 0.9; Entry.probFake := 0.1;
       Entry.risk := "Low" |} ].

Definition withHistory (hist : list Entry.t) : State.t :=
  {| State.file := None; State.loading := false;
     State.similarityThr := 0.8; State.anomalyThr := 0.0;
     State.result := None; State.history := hist |}.

(** A reply whose [prob_real] is a JSON number beyond the binary64 range,
    which [JSON.parse] reads as Infinity. *)
Definition overflow : Data.t :=
  {| Data.prob_real := Val infinity; Data.prob_fake := Val 0;
     Data.verdict := Val "real"; Data.iso_score := Null;
     Data.similarity := Null; Data.has_enrollment := Val false |}.

(** A reply without [prob_real] only, and one without [prob_fake] only. *)
Definition noProbReal : Data.t :=
  {| Data.prob_real := Absent; Data.prob_fake := Val 0.9;
     Data.verdict := Val "fake"; Data.iso_score := Null;
     Data.similarity := Null; Data.has_enrollment := Val false |}.

Definition noProbFake : Data.t :=
  {| Data.prob_real := Val 0.9; Data.prob_fake := Null;
     Data.verdict := Val "fake"; Data.iso_score := Null;
     Data.similarity := Null; Data.has_enrollment := Val false |}.

End Samples.

(** ** The rest of the page: file selection, examples, zoom *)

(** The values the example selector offers, which are the keys of
    [EXAMPLE_MAP]. *)
Inductive ExampleKey : Type :=
| key_none
| key_real_enrolled
| key_fake_tts.

Record ExampleEntry : Type := {
  example_label : string;
  example_path : string
}.

Definition EXAMPLE_MAP (key : ExampleKey) : option ExampleEntry :=
  match key with
  | key_none => None
  | key_real_enrolled =>
      Some {| example_label := "Real: enrolled-like";
              example_path := "/examples/real_enrolled.wav" |}
  | key_fake_tts =>
      Some {| example_label := "Fake: TTS-like";
              example_path := "/examples/fake_tts.wav" |}
  end.

(** [s.split(sep)] for a separator of one code unit. *)
Fixpoint split (sep : ascii) (s : string) : list string :=
  match s with
  | EmptyString => [EmptyString]
  | String c rest =>
      if Ascii.eqb c sep then EmptyString :: split sep rest
      else
        match split sep rest with
        | [] => [String c EmptyString]
        | part :: parts => String c part :: parts
        end
  end.

(** [parts.pop()]: the last element, [undefined] on an empty array. *)
Fixpoint pop (parts : list string) : option string :=
  match parts with
  | [] => None
  | [part] => Some part
  | _ :: rest => pop rest
  end.

(** [Math.max(a, b)] and [Math.min(a, b)]: NaN if either is NaN, and
    [+0] counts as larger than [-0]. *)
Definition Math_max (a b : float) : float :=
  if is_nan a || is_nan b then nan
  else if a <? b then b
  else if b <? a then a
  else if get_sign a then b else a.

Definition Math_min (a b : float) : float :=
  if is_nan a || is_nan b then nan
  else if a <? b then a
  else if b <? a then b
  else if get_sign a then a else b.

(** How the fetch of an example ends: a rejection (of the request or of
    the reading of its blob), or a reply with its [ok] flag. *)
Inductive Loaded : Type :=
| LoadRejected (message : string)
| LoadReplied (ok : bool).

(** The cells of the component next to the ones [State.t] holds. *)
Module Page.
Record t : Type := {
  app : State.t;
  audioUrl : option string;
  exampleKey : ExampleKey;
  zoom : float
}.

Definition initial : t :=
  {| app := State.initial; audioUrl := None; exampleKey := key_none;
     zoom := 1.0 |}.

Definition setApp (st : State.t) (p : t) : t :=
  {| app := st; audioUrl := audioUrl p; exampleKey := exampleKey p;
     zoom := zoom p |}.

Definition setAudioUrl (url : option string) (p : t) : t :=
  {| app := app p; audioUrl := url; exampleKey := exampleKey p;
     zoom := zoom p |}.

Definition setExampleKey (key : ExampleKey) (p : t) : t :=
  {| app := app p; audioUrl := audioUrl p; exampleKey := key;
     zoom := zoom p |}.

(** [setZoom] with an updater function. *)
Definition setZoom (f : float -> float) (p : t) : t :=
  {| app := app p; audioUrl := audioUrl p; exampleKey := exampleKey p;
     zoom := f (zoom p) |}.

Definition setFile (f : option string) (st : State.t) : State.t :=
  {| State.file := f; State.loading := State.loading st;
     State.similarityThr := State.similarityThr st;
     State.anomalyThr := State.anomalyThr st;
     State.result := State.result st; State.history := State.history st |}.

Definition setSimilarityThr (x : float) (st : State.t) : State.t :=
  {| State.file := State.file st; State.loading := State.loading st;
     State.similarityThr := x; State.anomalyThr := State.anomalyThr st;
     State.result := State.result st; State.history := State.history st |}.

Definition setAnomalyThr (x : float) (st : State.t) : State.t :=
  {| State.file := State.file st; State.loading := State.loading st;
     State.similarityThr := State.similarityThr st; State.anomalyThr := x;
     State.result := State.result st; State.history := State.history st |}.
End Page.

(** [onFileChange] (lines 739-748): [f] is [e.target.files[0]], [url] what
    [URL.createObjectURL] hands out for it. *)
Definition onFileChange (f : option string) (url : string) (p : Page.t)
  : Page.t :=
  let p := Page.setApp (Page.setFile f (Page.app p)) p in
  match f with
  | Some _ => Page.setAudioUrl (Some url) p
  | None => Page.setAudioUrl None p
  end.

Definition example_alert : string :=
  "Could not load example audio. Make sure files exist in public/examples/real_enrolled.wav and fake_tts.wav".

(** [handleLoadExample] (lines 751-772); [url] is what
    [URL.createObjectURL] hands out for the blob. *)
Definition handleLoadExample (p : Page.t) (net : Loaded) (url : string)
  : Page.t * list Effect :=
  match EXAMPLE_MAP (Page.exampleKey p) with
  | None => (p, [alert "Choose an example type first."])
  | Some ex =>
      match net with
      | LoadRejected message =>
          (p, [console_error message; alert example_alert])
      | LoadReplied false =>
          (p, [console_error "Example not found"; alert example_alert])
      | LoadReplied true =>
          let name := pop (split "/" (example_path ex)) in
          let p := Page.setApp (Page.setFile name (Page.app p)) p in
          (Page.setAudioUrl (Some url) p, [])
      end
  end.

(** The zoom buttons of the spectrogram (lines 1353-1377). *)
Definition zoomOut (p : Page.t) : Page.t :=
  Page.setZoom (fun z => Math_max 0.5 (z - 0.25)) p.

Definition zoomIn (p : Page.t) : Page.t :=
  Page.setZoom (fun z => Math_min 3 (z + 0.25)) p.

Definition zoomReset (p : Page.t) : Page.t :=
  Page.setZoom (fun _ => 1.0) p.

(** The zoom factors the buttons can reach from 1.0. *)
Definition zoomLevels : list float :=
  [0.5; 0.75; 1; 1.25; 1.5; 1.75; 2; 2.25; 2.5; 2.75; 3].

Section App.

#[local] Set Default Proof Using "Type".

(** String.prototype.toLowerCase, the runtime's Unicode case mapping. *)
Variable toLowerCase : string -> string.

(** Number::toString for the magnitudes toFixed does not format. *)
Variable NumberToString : float -> string.

(** *** The decision stack of [handleAnalyze] (lines 794-859) *)

Section Decision.

Variable data : Data.t.
Variables similarityThr anomalyThr : float.

Definition probReal : float := Number (coalesce (Data.prob_real data) 0).
Definition probFake : float := Number (coalesce (Data.prob_fake data) 0).
Definition backendVerdict : string :=
  toLowerCase (or_empty (Data.verdict data)).
Definition isoScore : field float := Data.iso_score data.
Definition similarity : field float := Data.similarity data.

(** The three conditions; the source writes each of them twice, once
    for its reason and once for its risk penalty. *)
Definition lowReal : bool := probReal <? 0.6.
Definition anomalous : bool :=
  not_null isoScore && field_lt isoScore anomalyThr.
Definition mismatch : bool :=
  truthy (Data.has_enrollment data) && not_null similarity
  && field_lt similarity similarityThr.

Definition reasons : list string :=
  let reasons : list string := [] in
  let reasons :=
    if lowReal
    then (reasons ++ ["Spoof model: low real probability"])%list
    else reasons in
  let reasons :=
    if anomalous
    then (reasons ++ ["Anomaly detector: unusual embedding"])%list
    else reasons in
  let reasons :=
    if mismatch
    then (reasons ++ ["Speaker mismatch: low similarity"])%list
    else reasons in
  reasons.

Definition baseVerdict : string :=
  if String.eqb backendVerdict "fake" && (probFake >? 0.6)
  then "REJECT" else "ACCEPT".

Definition finalVerdict : string :=
  if String.eqb baseVerdict "ACCEPT" && (List.length reasons =? 0)%nat
  then "ACCEPT"
  else if String.eqb baseVerdict "REJECT" then "REJECT"
  else "SUSPICIOUS".

Definition riskScore : N :=
  let riskScore := 0%N in
  let riskScore :=
    if probReal >=? 0.75 then (riskScore + 0)%N
    else if probReal >=? 0.5 then (riskScore + 1)%N
    else (riskScore + 2)%N in
  let riskScore := if anomalous then (riskScore + 1)%N else riskScore in
  let riskScore := if mismatch then (riskScore + 1)%N else riskScore in
  riskScore.

Definition riskString : string :=
  if probReal <? 0.5 then "High"
  else if (riskScore <=? 1)%N then "Low"
  else if (riskScore =? 2)%N then "Medium"
  else "High".

(** The superseded scoring of the first and third revisions
    (lines 129-135 and 1711-1718). *)
Definition riskLevel : N :=
  let riskLevel := 0%N in
  let riskLevel := if lowReal then (riskLevel + 1)%N else riskLevel in
  let riskLevel := if anomalous then (riskLevel + 1)%N else riskLevel in
  let riskLevel := if mismatch then (riskLevel + 1)%N else riskLevel in
  riskLevel.

Definition riskString_rev1 : string :=
  if (riskLevel =? 0)%N then "Low"
  else if (riskLevel =? 1)%N then "Medium" else "High".

Definition merged (name : string) : Merged.t :=
  {| Merged.data :=
       {| Data.prob_real := Val probReal;
          Data.prob_fake := Val probFake;
          Data.verdict := Data.verdict data;
          Data.iso_score := Data.iso_score data;
          Data.similarity := Data.similarity data;
          Data.has_enrollment := Data.has_enrollment data |};
     Merged.verdict_frontend := finalVerdict;
     Merged.risk_level_frontend := riskString;
     Merged.reasons := reasons;
     Merged.file_name := name;
     Merged.similarity_threshold_used := similarityThr;
     Merged.anomaly_threshold_used := anomalyThr |}.

Definition entry (name : string) : Entry.t :=
  {| Entry.file := name; Entry.verdict := finalVerdict;
     Entry.probReal := probReal; Entry.probFake := probFake;
     Entry.risk := riskString |}.

End Decision.

(** *** The two handlers *)

(** The [catch] and [finally] blocks of [handleAnalyze]. *)
Definition caught (message : string) (st : State.t)
  : State.t * list Effect :=
  (State.setLoading false st,
   [console_error message; alert ("Error calling backend: " ++ message)]).

Definition handleAnalyze (st : State.t) (net : Fetched)
  : State.t * list Effect :=
  match State.file st with
  | None => (st, [alert "Select or load an audio file first."])
  | Some name =>
      let st := State.setLoading true st in
      match net with
      | Rejected message => caught message st
      | Replied false status _ => caught ("HTTP " ++ decimal status) st
      | Replied true _ (inl message) => caught message st
      | Replied true _ (inr data) =>
          let sim := State.similarityThr st in
          let ano := State.anomalyThr st in
          let st := State.setResult (merged data sim ano name) st in
          let st :=
            State.setHistory (fun prev => entry data sim ano name :: prev) st in
          (State.setLoading false st, [])
      end
  end.

(** One analysis after the other, each with a reply that parses. *)
Definition analyseAll (st : State.t) (replies : list Data.t) : State.t :=
  fold_left
    (fun st data => fst (handleAnalyze st (Replied true 200 (inr data))))
    replies st.

Definition header : list string :=
  ["index"; "file"; "verdict"; "prob_real"; "prob_fake"; "risk"].

(** The callback of [history.map]: the row of entry [h] at position [idx]
    of a history of [len] entries. *)
Definition row (len : nat) (h : Entry.t) (idx : nat) : list string :=
  [decimal (N.of_nat (len - idx));
   Entry.file h;
   Entry.verdict h;
   toFixed NumberToString 3 (Entry.probReal h);
   toFixed NumberToString 3 (Entry.probFake h);
   Entry.risk h].

(** [xs.map((x, idx) => f(x, idx))], counting from [idx]. *)
Fixpoint mapi {A B : Type} (f : A -> nat -> B) (idx : nat) (xs : list A)
  : list B :=
  match xs with
  | [] => []
  | x :: rest => f x idx :: mapi f (S idx) rest
  end.

Definition rows (hist : list Entry.t) : list (list string) :=
  mapi (row (List.length hist)) 0 hist.

Definition newline : string := String (ascii_of_nat 10) "".

Definition csv (hist : list Entry.t) : string :=
  join newline (join "," header :: map (join ",") (rows hist)).

Definition handleDownloadHistory (st : State.t) : State.t * list Effect :=
  if (List.length (State.history st) =? 0)%nat
  then (st, [alert "No history to download."])
  else (st, [download "voice_auth_session_history.csv" "text/csv"
               (csv (State.history st))]).

(** The three reason strings. *)
Definition spoofReason : string := "Spoof model: low real probability".
Definition anomalyReason : string := "Anomaly detector: unusual embedding".
Definition mismatchReason : string := "Speaker mismatch: low similarity".

(** The base risk from [prob_real] (lines 826-833). *)
Definition probPoints (p : float) : N :=
  if p >=? 0.75 then 0%N else if p >=? 0.5 then 1%N else 2%N.

(** *** What the page shows *)

Record Pill : Type := { cls : string; label : string }.

(** [verdictStyle] (lines 921-927). *)
Definition verdictStyle (result : option Merged.t) : Pill :=
  match result with
  | None => {| cls := ""; label := "" |}
  | Some result =>
      let v := Merged.verdict_frontend result in
      if String.eqb v "ACCEPT"
      then {| cls := "pill-real"; label := "AUTHENTIC" |}
      else if String.eqb v "REJECT"
      then {| cls := "pill-fake"; label := "SUSPECTED SPOOF" |}
      else {| cls := "pill-susp"; label := "SUSPICIOUS" |}
  end.

(** The class of the verdict card (lines 1217-1223). *)
Definition verdictClass (result : Merged.t) : string :=
  "verdict "
  ++ (if String.eqb (Merged.verdict_frontend result) "ACCEPT"
      then "verdict-accept"
      else if String.eqb (Merged.verdict_frontend result) "REJECT"
      then "verdict-reject"
      else "verdict-suspicious").

(** The reason list is rendered when this holds (line 1266). *)
Definition showReasons (juryMode : bool) (result : Merged.t) : bool :=
  negb juryMode && (0 <? List.length (Merged.reasons result))%nat.

(** The class of the verdict tag of a history row (lines 1308-1314). *)
Definition tagClass (h : Entry.t) : string :=
  "tag "
  ++ (if String.eqb (Entry.verdict h) "ACCEPT" then "tag-real"
      else if String.eqb (Entry.verdict h) "REJECT" then "tag-fake"
      else "tag-susp").

(** The cells of the history table's row for entry [h] at position [i]
    (lines 1302-1322). *)
Definition tableRow (len : nat) (h : Entry.t) (i : nat) : list string :=
  [decimal (N.of_nat (len - i));
   Entry.file h;
   Entry.verdict h;
   toFixed NumberToString 2 (Entry.probReal h);
   toFixed NumberToString 2 (Entry.probFake h);
   Entry.risk h].

Definition tableRows (hist : list Entry.t) : list (list string) :=
  mapi (tableRow (List.length hist)) 0 hist.

(** [v.toFixed(3)] on a property: a TypeError ([None]) when the property
    is [undefined] or [null]. *)
Definition fixed3 (v : field float) : option string :=
  match v with
  | Val x => Some (toFixed NumberToString 3 x)
  | Absent | Null => None
  end.

(** [v !== null ? v.toFixed(3) : "None"] (lines 1409-1411, 1424-1426). *)
Definition orNone (v : field float) : option string :=
  if not_null v then fixed3 v else Some "None".

(** The probability, anomaly and similarity lines of the internal
    metrics (lines 1405-1427); [None] when rendering throws. *)
Definition metrics (result : Merged.t) : option (list string) :=
  match fixed3 (Data.prob_real (Merged.data result)),
        fixed3 (Data.prob_fake (Merged.data result)),
        orNone (Data.iso_score (Merged.data result)),
        orNone (Data.similarity (Merged.data result)) with
  | Some real, Some fake, Some iso, Some sim =>
      Some ["Prob. real: " ++ real; "Prob. fake: " ++ fake;
            "Anomaly score: " ++ iso; "Similarity: " ++ sim]
  | _, _, _, _ => None
  end.

(** The zoom level next to the buttons (line 1362). *)
Definition zoomLabel (p : Page.t) : string :=
  toFixed NumberToString 0 (Page.zoom p * 100) ++ "%".

(** *** What the user can do, one event at a time

    Each handler runs to its end before the next event is taken; an
    event carries what the runtime hands to the handler (the chosen file,
    the parsed slider value, the outcome of a request, an object URL). *)

Inductive Event : Type :=
| FileChanged (f : option string) (url : string)
| ExampleChosen (key : ExampleKey)
| LoadExample (net : Loaded) (url : string)
| SimilarityMoved (x : float)
| AnomalyMoved (x : float)
| Analyze (net : Fetched)
| DownloadHistory
| ZoomOut
| ZoomIn
| ZoomReset.

Definition step (p : Page.t) (e : Event) : Page.t * list Effect :=
  match e with
  | FileChanged f url => (onFileChange f url p, [])
  | ExampleChosen key => (Page.setExampleKey key p, [])
  | LoadExample net url => handleLoadExample p net url
  | SimilarityMoved x =>
      (Page.setApp (Page.setSimilarityThr x (Page.app p)) p, [])
  | AnomalyMoved x =>
      (Page.setApp (Page.setAnomalyThr x (Page.app p)) p, [])
  | Analyze net =>
      let (st, effects) := handleAnalyze (Page.app p) net in
      (Page.setApp st p, effects)
  | DownloadHistory =>
      let (st, effects) := handleDownloadHistory (Page.app p) in
      (Page.setApp st p, effects)
  | ZoomOut => (zoomOut p, [])
  | ZoomIn => (zoomIn p, [])
  | ZoomReset => (zoomReset p, [])
  end.

(** The page after a sequence of events. *)
Definition run (p : Page.t) (events : list Event) : Page.t :=
  fold_left (fun p e => fst (step p e)) events p.

(** A history row whose verdict and risk are among the labels the
    component knows. *)
Definition wellLabelled (h : Entry.t) : Prop :=
  In (Entry.verdict h) ["ACCEPT"; "REJECT"; "SUSPICIOUS"]
  /\ In (Entry.risk h) ["Low"; "Medium"; "High"].

(** The file and its preview go together: both set or both unset. *)
Definition previewMatchesFile (p : Page.t) : Prop :=
  Page.audioUrl p = None <-> State.file (Page.app p) = None.

(** What [x.toFixed(f)] leaves in a cell: [f] decimal places for a number
    in fixed notation, the name of a value that is not finite, and
    Number::toString of the magnitude, behind the sign, from [10^21]
    on. *)
Definition printed (f : nat) (x : float) (cell : string) : Prop :=
  (fixedNotation x = true -> Spec.printedFixed f x cell)
  /\ (is_nan x = true -> cell = "NaN")
  /\ (is_nan x = false -> is_infinity x = true ->
      cell = if x <? 0 then "-Infinity" else "Infinity")
  /\ (is_nan x = false -> is_infinity x = false ->
      fixedNotation x = false ->
      cell = (if x <? 0 then "-" else "") ++ NumberToString (abs x)).

(** ** Comparisons of binary64 values *)

Lemma Prim2SF_nan : Prim2SF nan = S754_nan.
Proof. reflexivity. Qed.

Lemma ltb_nan_l (y : float) : (nan <? y) = false.
Proof. rewrite ltb_spec, Prim2SF_nan. reflexivity. Qed.

Lemma is_nan_Prim2SF (x : float) :
  is_nan x = false -> Prim2SF x <> S754_nan.
Proof.
  unfold is_nan. rewrite eqb_spec. intros H E. rewrite E in H. discriminate.
Qed.

Lemma SFcompare_antisym (a b : spec_float) :
  SFcompare b a = option_map CompOpp (SFcompare a b).
Proof.
  destruct a as [sa|sa| |sa ma ea], b as [sb|sb| |sb mb eb]; simpl;
    try reflexivity; try (destruct sa; reflexivity);
    try (destruct sb; reflexivity); try (destruct sa, sb; reflexivity).
  rewrite (Z.compare_antisym ea eb).
  change (PosDef.Pos.compare_cont Eq mb ma) with (Pos.compare mb ma).
  change (PosDef.Pos.compare_cont Eq ma mb) with (Pos.compare ma mb).
  rewrite (Pos.compare_antisym ma mb).
  destruct sa, sb; simpl; try reflexivity;
    destruct (ea ?= eb)%Z; simpl; try reflexivity;
    destruct (ma ?= mb)%positive; reflexivity.
Qed.

Lemma SFcompare_some (a b : spec_float) :
  a <> S754_nan -> b <> S754_nan -> exists c, SFcompare a b = Some c.
Proof.
  intros Ha Hb.
  destruct a as [sa|sa| |sa ma ea], b as [sb|sb| |sb mb eb]; simpl;
    try congruence; eexists; reflexivity.
Qed.

(** Away from NaN, [x >= c] is the negation of [x < c]. *)
Lemma ge_negb_lt (x c : float) :
  is_nan x = false -> is_nan c = false -> (x >=? c) = negb (x <? c).
Proof.
  intros Hx Hc. rewrite leb_spec, ltb_spec.
  unfold SFleb, SFltb.
  rewrite (SFcompare_antisym (Prim2SF x) (Prim2SF c)).
  destruct (SFcompare_some (Prim2SF x) (Prim2SF c)) as [r Hr];
    auto using is_nan_Prim2SF.
  rewrite Hr. destruct r; reflexivity.
Qed.

(** ** The decision stack *)

Lemma reasons_eq (data : Data.t) (sim ano : float) :
  reasons data sim ano
  = ((if lowReal data then [spoofReason] else [])
     ++ (if anomalous data ano then [anomalyReason] else [])
     ++ (if mismatch data sim then [mismatchReason] else []))%list.
Proof.
  unfold reasons.
  destruct (lowReal data), (anomalous data ano), (mismatch data sim);
    reflexivity.
Qed.

Lemma reasons_empty (data : Data.t) (sim ano : float) :
  (List.length (reasons data sim ano) =? 0)%nat
  = negb (lowReal data) && negb (anomalous data ano)
    && negb (mismatch data sim).
Proof.
  rewrite reasons_eq.
  destruct (lowReal data), (anomalous data ano), (mismatch data sim);
    reflexivity.
Qed.

Lemma baseVerdict_cases (data : Data.t) :
  baseVerdict data = "REJECT" \/ baseVerdict data = "ACCEPT".
Proof.
  unfold baseVerdict.
  destruct (String.eqb (backendVerdict data) "fake"
            && (probFake data >? 0.6));
    auto.
Qed.

Lemma riskScore_eq (data : Data.t) (sim ano : float) :
  riskScore data sim ano
  = (probPoints (probReal data)
     + (if anomalous data ano then 1 else 0)
     + (if mismatch data sim then 1 else 0))%N.
Proof.
  unfold riskScore, probPoints.
  destruct (probReal data >=? 0.75), (probReal data >=? 0.5),
    (anomalous data ano), (mismatch data sim); reflexivity.
Qed.

(** With a file selected and a reply that parses, [handleAnalyze] raises
    no alert: it stores the merged result and puts the new row in front
    of the history. *)
Lemma handleAnalyze_ok (st : State.t) (name : string) (status : N)
    (data : Data.t) :
  State.file st = Some name ->
  handleAnalyze st (Replied true status (inr data))
  = ({| State.file := Some name; State.loading := false;
        State.similarityThr := State.similarityThr st;
        State.anomalyThr := State.anomalyThr st;
        State.result :=
          Some (merged data (State.similarityThr st) (State.anomalyThr st)
                  name);
        State.history :=
          entry data (State.similarityThr st) (State.anomalyThr st) name
          :: State.history st |}, []).
Proof.
  intros Hfile. unfold handleAnalyze. rewrite Hfile.
  unfold State.setLoading, State.setHistory, State.setResult. cbn.
  rewrite Hfile. reflexivity.
Qed.

(** [SFltb] against a larger bound of the same sign and exponent. *)
Lemma SFltb_widen (a : spec_float) (m1 m2 : positive) (e : Z) :
  (m1 < m2)%positive ->
  SFltb a (S754_finite false m1 e) = true ->
  SFltb a (S754_finite false m2 e) = true.
Proof.
  intros Hm. unfold SFltb.
  destruct a as [s|s| |s m e']; simpl; try (intros; assumption).
  destruct s; [intros; reflexivity|].
  destruct (e' ?= e)%Z; try (intros; assumption).
  change (PosDef.Pos.compare_cont Eq m m1) with (m ?= m1)%positive.
  change (PosDef.Pos.compare_cont Eq m m2) with (m ?= m2)%positive.
  destruct (m ?= m1)%positive eqn:Hlow; try discriminate.
  intros _. apply Pos.compare_lt_iff in Hlow.
  assert (Hhigh : (m < m2)%positive) by (eapply Pos.lt_trans; eassumption).
  apply Pos.compare_lt_iff in Hhigh. rewrite Hhigh. reflexivity.
Qed.

(** Below one half is below three quarters, also for zeros, infinities
    and subnormal values. *)
Lemma lt_half_three_quarters (x : float) :
  (x <? 0.5) = true -> (x <? 0.75) = true.
Proof.
  rewrite !ltb_spec.
  change (Prim2SF 0.5) with (S754_finite false 4503599627370496 (-53)).
  change (Prim2SF 0.75) with (S754_finite false 6755399441055744 (-53)).
  apply SFltb_widen. reflexivity.
Qed.

(** ** The claims about the decision stack *)

(** C1 (amended): for every input whose backend verdict is, after
    lower-casing, ["fake"] and whose [prob_fake] is above 0.6, the final
    verdict is REJECT, whatever the anomaly score, the similarity, the
    thresholds and the other fields are. *)
Theorem C1_reject_when_backend_says_fake
    (data : Data.t) (sim ano : float) :
  backendVerdict data = "fake" ->
  (probFake data >? 0.6) = true ->
  finalVerdict data sim ano = "REJECT".
Proof.
  intros Hverdict Hfake. unfold finalVerdict, baseVerdict.
  rewrite Hverdict, Hfake. reflexivity.
Qed.

(** C2: away from NaN, the risk score is 2 below 0.5, else 1 below 0.75,
    else 0, plus 1 for a failed anomaly check and 1 for a failed
    identity-mismatch check; and when the hard rule does not fire, the
    tier is Low up to 1, Medium at 2 and High from 3 on. *)
Theorem C2_risk_score_and_tier (data : Data.t) (sim ano : float) :
  is_nan (probReal data) = false ->
  riskScore data sim ano
  = Spec.riskScore (probReal data) (anomalous data ano) (mismatch data sim)
  /\ ((probReal data <? 0.5) = false ->
      Spec.riskTier (riskScore data sim ano) (riskString data sim ano)).
Proof.
  intros Hnan. split.
  - unfold riskScore, Spec.riskScore.
    rewrite !(ge_negb_lt (probReal data)) by (assumption || reflexivity).
    destruct (probReal data <? 0.5) eqn:Hhalf.
    + rewrite (lt_half_three_quarters _ Hhalf). reflexivity.
    + destruct (probReal data <? 0.75); reflexivity.
  - intros Hhalf. unfold riskString. rewrite Hhalf.
    unfold Spec.riskTier.
    destruct (riskScore data sim ano <=? 1)%N eqn:Hle;
      [apply N.leb_le in Hle | apply N.leb_gt in Hle].
    + repeat split; intros; (reflexivity || lia).
    + destruct (riskScore data sim ano =? 2)%N eqn:Heq;
        [apply N.eqb_eq in Heq | apply N.eqb_neq in Heq];
        repeat split; intros; (reflexivity || lia).
Qed.

(** C3: whenever [prob_real] is below 0.5 the risk tier is High, whatever
    the anomaly score, the similarity, the thresholds and the other
    fields are. *)
Theorem C3_high_risk_override (data : Data.t) (sim ano : float) :
  (probReal data <? 0.5) = true -> riskString data sim ano = "High".
Proof.
  intros Hhalf. unfold riskString. rewrite Hhalf. reflexivity.
Qed.

(** C4 (amended): the reasons are the fixed sequence spoof-probability
    reason, anomaly reason, identity-mismatch reason, with the reasons of
    the checks that passed left out; so when more than one check fails
    the spoof-probability reason comes first and the identity-mismatch
    reason last. *)
Theorem C4_reasons_in_source_order (data : Data.t) (sim ano : float) :
  reasons data sim ano
  = map snd
      (filter fst
         [(lowReal data, spoofReason);
          (anomalous data ano, anomalyReason);
          (mismatch data sim, mismatchReason)]).
Proof.
  rewrite reasons_eq.
  destruct (lowReal data), (anomalous data ano), (mismatch data sim);
    reflexivity.
Qed.

(** C5: the final verdict is exactly one of ACCEPT, REJECT and
    SUSPICIOUS; it is ACCEPT iff the base verdict is ACCEPT and no check
    failed, REJECT iff the base verdict is REJECT, and SUSPICIOUS iff the
    base verdict is ACCEPT and at least one check failed. *)
Theorem C5_final_verdict (data : Data.t) (sim ano : float) :
  (exists! v, In v ["ACCEPT"; "REJECT"; "SUSPICIOUS"]
              /\ finalVerdict data sim ano = v)
  /\ (finalVerdict data sim ano = "ACCEPT"
      <-> baseVerdict data = "ACCEPT"
          /\ lowReal data || anomalous data ano || mismatch data sim = false)
  /\ (finalVerdict data sim ano = "REJECT" <-> baseVerdict data = "REJECT")
  /\ (finalVerdict data sim ano = "SUSPICIOUS"
      <-> baseVerdict data = "ACCEPT"
          /\ lowReal data || anomalous data ano || mismatch data sim = true).
Proof.
  clear NumberToString.
  unfold finalVerdict. rewrite reasons_empty.
  destruct (baseVerdict_cases data) as [Hbase | Hbase]; rewrite Hbase;
    destruct (lowReal data), (anomalous data ano), (mismatch data sim);
    cbn;
    (split;
     [eexists; split;
      [split; [|reflexivity]; cbn; tauto
      |intros v' [_ Hv']; exact Hv']
     |repeat split; (discriminate || intuition (auto; discriminate))]).
Qed.

(** C6: the reasons list has one entry per failed check, no more and no
    fewer; it is empty iff no check failed. *)
Theorem C6_reason_count (data : Data.t) (sim ano : float) :
  List.length (reasons data sim ano)
  = Spec.failed (mismatch data sim) (anomalous data ano) (lowReal data)
  /\ (reasons data sim ano = []
      <-> mismatch data sim = false /\ anomalous data ano = false
          /\ lowReal data = false).
Proof.
  rewrite reasons_eq.
  destruct (lowReal data), (anomalous data ano), (mismatch data sim);
    cbn; (split; [reflexivity|]);
    (split; [intros H; (discriminate H || auto)
            |intros (H1 & H2 & H3); (discriminate || reflexivity)]).
Qed.

(** C7: with the anomaly score missing the anomaly check does not fail,
    under any threshold: no reason and no risk penalty; with no
    enrollment, or with the similarity missing, the identity-mismatch
    check does not fail either.  A missing value is not compared as
    zero. *)
Theorem C7_missing_values_never_fail (data : Data.t) (sim ano : float) :
  (missing (Data.iso_score data) = true ->
   anomalous data ano = false
   /\ ~ In anomalyReason (reasons data sim ano)
   /\ riskScore data sim ano
      = (probPoints (probReal data)
         + (if mismatch data sim then 1 else 0))%N)
  /\ (truthy (Data.has_enrollment data) = false
      \/ missing (Data.similarity data) = true ->
      mismatch data sim = false
      /\ ~ In mismatchReason (reasons data sim ano)
      /\ riskScore data sim ano
         = (probPoints (probReal data)
            + (if anomalous data ano then 1 else 0))%N).
Proof.
  clear toLowerCase NumberToString.
  split.
  - intros Hmissing.
    assert (Hcheck : anomalous data ano = false).
    { unfold anomalous, isoScore, field_lt.
      destruct (Data.iso_score data); try discriminate; cbn;
        [apply ltb_nan_l | reflexivity]. }
    rewrite riskScore_eq, reasons_eq, Hcheck. repeat split.
    + destruct (lowReal data), (mismatch data sim); cbn;
        intuition discriminate.
    + lia.
  - intros Hmissing.
    assert (Hcheck : mismatch data sim = false).
    { unfold mismatch, similarity, field_lt.
      destruct Hmissing as [Hno | Hmissing]; [rewrite Hno; reflexivity|].
      destruct (truthy (Data.has_enrollment data)); [|reflexivity].
      destruct (Data.similarity data); try discriminate; cbn;
        [apply ltb_nan_l | reflexivity]. }
    rewrite riskScore_eq, reasons_eq, Hcheck. repeat split.
    + destruct (lowReal data), (anomalous data ano); cbn;
        intuition discriminate.
    + lia.
Qed.

(** C10: a reply without [prob_real] or without [prob_fake] does not
    make [handleAnalyze] fail: the missing one is read as 0, whatever the
    other is, and a present one is taken as it is; the result is stored
    and no alert is raised.  With both missing the spoof-probability
    check fails, the base verdict stays ACCEPT, the final verdict is
    SUSPICIOUS and the risk tier is High. *)
Theorem C10_missing_probabilities
    (st : State.t) (name : string) (status : N) (data : Data.t) :
  State.file st = Some name ->
  let sim := State.similarityThr st in
  let ano := State.anomalyThr st in
  (missing (Data.prob_real data) = true ->
   probReal data = 0 /\ lowReal data = true
   /\ In spoofReason (reasons data sim ano)
   /\ riskString data sim ano = "High")
  /\ (missing (Data.prob_fake data) = true ->
      probFake data = 0 /\ baseVerdict data = "ACCEPT")
  /\ (forall x : float, Data.prob_real data = Val x -> probReal data = x)
  /\ (forall y : float, Data.prob_fake data = Val y -> probFake data = y)
  /\ (missing (Data.prob_real data) = true ->
      missing (Data.prob_fake data) = true ->
      finalVerdict data sim ano = "SUSPICIOUS"
      /\ riskString data sim ano = "High")
  /\ exists st',
      handleAnalyze st (Replied true status (inr data)) = (st', [])
      /\ option_map Merged.verdict_frontend (State.result st')
         = Some (finalVerdict data sim ano)
      /\ option_map Merged.risk_level_frontend (State.result st')
         = Some (riskString data sim ano)
      /\ State.history st'
         = {| Entry.file := name;
              Entry.verdict := finalVerdict data sim ano;
              Entry.probReal := probReal data;
              Entry.probFake := probFake data;
              Entry.risk := riskString data sim ano |} :: State.history st
      /\ (missing (Data.prob_real data) = true ->
          missing (Data.prob_fake data) = true ->
          option_map Merged.verdict_frontend (State.result st')
          = Some "SUSPICIOUS"
          /\ option_map Merged.risk_level_frontend (State.result st')
             = Some "High"
          /\ State.history st'
             = {| Entry.file := name; Entry.verdict := "SUSPICIOUS";
                  Entry.probReal := 0; Entry.probFake := 0;
                  Entry.risk := "High" |} :: State.history st).
Proof.
  intros Hfile sim ano.
  assert (Hr : missing (Data.prob_real data) = true -> probReal data = 0).
  { unfold probReal. destruct (Data.prob_real data);
      (discriminate || reflexivity). }
  assert (Hf : missing (Data.prob_fake data) = true -> probFake data = 0).
  { unfold probFake. destruct (Data.prob_fake data);
      (discriminate || reflexivity). }
  assert (Hlow : missing (Data.prob_real data) = true ->
                 lowReal data = true).
  { intros H. unfold lowReal. rewrite (Hr H). reflexivity. }
  assert (Hbase : missing (Data.prob_fake data) = true ->
                  baseVerdict data = "ACCEPT").
  { intros H. unfold baseVerdict. rewrite (Hf H).
    destruct (String.eqb (backendVerdict data) "fake"); reflexivity. }
  assert (Hrisk : missing (Data.prob_real data) = true ->
                  riskString data sim ano = "High").
  { intros H. unfold riskString. rewrite (Hr H). reflexivity. }
  assert (Hfinal : missing (Data.prob_real data) = true ->
                   missing (Data.prob_fake data) = true ->
                   finalVerdict data sim ano = "SUSPICIOUS").
  { intros H1 H2. unfold finalVerdict.
    rewrite reasons_empty, (Hbase H2), (Hlow H1). reflexivity. }
  split; [|split; [|split; [|split; [|split]]]].
  - intros H. repeat split; auto.
    rewrite reasons_eq, (Hlow H). left. reflexivity.
  - intros H. split; auto.
  - intros x Hx. unfold probReal. rewrite Hx. reflexivity.
  - intros y Hy. unfold probFake. rewrite Hy. reflexivity.
  - intros H1 H2. split; auto.
  - eexists. split; [apply (handleAnalyze_ok st name status data Hfile)|].
    cbn. unfold entry. fold sim ano.
    split; [reflexivity|]. split; [reflexivity|]. split; [reflexivity|].
    intros H1 H2.
    rewrite (Hfinal H1 H2), (Hrisk H1), (Hr H1), (Hf H2). repeat split.
Qed.

(** ** Decimal strings *)

Lemma digits_app (a b : string) :
  Spec.digits (a ++ b) = Spec.digits a && Spec.digits b.
Proof.
  induction a as [|c a IH]; simpl; [reflexivity|].
  rewrite IH. apply andb_assoc.
Qed.

Lemma digits_repeat_zero (n : nat) : Spec.digits (repeat_char "0" n) = true.
Proof. induction n as [|n IH]; simpl; [reflexivity | exact IH]. Qed.

Lemma digits_string_of_uint (d : Decimal.uint) :
  Spec.digits (NilEmpty.string_of_uint d) = true.
Proof. induction d; simpl; assumption || reflexivity. Qed.

Lemma digits_decimal (n : N) : Spec.digits (decimal n) = true.
Proof.
  unfold decimal, NilZero.string_of_uint.
  destruct (N.to_uint n) eqn:E; try reflexivity;
    rewrite <- E; apply digits_string_of_uint.
Qed.

Lemma digits_substring (s : string) :
  Spec.digits s = true ->
  forall i n, Spec.digits (substring i n s) = true.
Proof.
  induction s as [|c s IH]; intros H i n.
  - destruct i, n; reflexivity.
  - simpl in H. apply andb_true_iff in H. destruct H as [Hc Hs].
    destruct i as [|i]; [|simpl; apply IH; assumption].
    destruct n as [|n]; [reflexivity|].
    simpl. rewrite Hc. apply (IH Hs 0%nat n).
Qed.

Lemma length_app (a b : string) :
  String.length (a ++ b) = (String.length a + String.length b)%nat.
Proof. induction a as [|c a IH]; simpl; [reflexivity | now rewrite IH]. Qed.

Lemma length_repeat_char (c : ascii) (n : nat) :
  String.length (repeat_char c n) = n.
Proof. induction n as [|n IH]; simpl; [reflexivity | now rewrite IH]. Qed.

Lemma length_substring (s : string) :
  forall i n, (i + n <= String.length s)%nat ->
              String.length (substring i n s) = n.
Proof.
  induction s as [|c s IH]; intros i n H; simpl in H.
  - assert (i = 0%nat) by lia. assert (n = 0%nat) by lia.
    subst. reflexivity.
  - destruct i as [|i].
    + destruct n as [|n]; [reflexivity|].
      simpl. f_equal. apply (IH 0%nat n). lia.
    + simpl. apply IH. lia.
Qed.

(** The point is put before the last [f] digits, and at least one digit
    is left in front of it. *)
Lemma place_point_fixedDecimals (f : nat) (n : N) :
  f <> 0%nat ->
  exists whole fraction : string,
    place_point f n = whole ++ "." ++ fraction
    /\ whole <> "" /\ Spec.digits whole = true
    /\ Spec.digits fraction = true /\ String.length fraction = f.
Proof.
  intros Hf. unfold place_point.
  set (m0 := decimal n).
  set (m := if (String.length m0 <=? f)%nat
            then repeat_char "0" (f + 1 - String.length m0) ++ m0 else m0).
  assert (Hdigits : Spec.digits m = true).
  { unfold m. destruct (String.length m0 <=? f)%nat.
    - rewrite digits_app, digits_repeat_zero. apply digits_decimal.
    - apply digits_decimal. }
  assert (Hlen : (f + 1 <= String.length m)%nat).
  { unfold m. destruct (String.length m0 <=? f)%nat eqn:Hk.
    - apply Nat.leb_le in Hk.
      rewrite length_app, length_repeat_char. lia.
    - apply Nat.leb_gt in Hk. lia. }
  destruct (f =? 0)%nat eqn:Hzero; [apply Nat.eqb_eq in Hzero; lia|].
  exists (substring 0 (String.length m - f) m),
    (substring (String.length m - f) f m).
  split; [reflexivity|]. split.
  - intros Hempty.
    assert (Hl : String.length (substring 0 (String.length m - f) m)
                 = (String.length m - f)%nat)
      by (apply length_substring; lia).
    rewrite Hempty in Hl. simpl in Hl. lia.
  - split; [apply digits_substring; assumption|].
    split; [apply digits_substring; assumption|].
    apply length_substring. lia.
Qed.

(** [nearest_scaled] rounds to the nearest integer, halves upwards:
    twice the scaled value lies in [[2n - 1, 2n + 1)]. *)
Lemma nearest_scaled_nearest (f : nat) (m : positive) (e : Z) :
  let n := Z.of_N (nearest_scaled f m e) in
  ((0 <= e)%Z -> n = (Z.pos m * 2 ^ e * 10 ^ Z.of_nat f)%Z)
  /\ ((e < 0)%Z ->
      ((2 * n - 1) * 2 ^ (- e) <= 2 * Z.pos m * 10 ^ Z.of_nat f
       < (2 * n + 1) * 2 ^ (- e))%Z).
Proof.
  unfold nearest_scaled.
  assert (Hscale : (0 < 10 ^ Z.of_nat f)%Z) by (apply Z.pow_pos_nonneg; lia).
  split; intros He.
  - destruct (0 <=? e)%Z eqn:Hb; [|apply Z.leb_gt in Hb; lia].
    assert (0 < 2 ^ e)%Z by (apply Z.pow_pos_nonneg; lia).
    rewrite Z2N.id by nia. reflexivity.
  - destruct (0 <=? e)%Z eqn:Hb; [apply Z.leb_le in Hb; lia|].
    set (d := (2 ^ (- e))%Z).
    assert (Hd : (0 < d)%Z) by (apply Z.pow_pos_nonneg; lia).
    replace (2 ^ (1 - e))%Z with (2 * d)%Z
      by (unfold d; replace (1 - e)%Z with (Z.succ (- e)) by lia;
          rewrite Z.pow_succ_r by lia; reflexivity).
    set (v := (2 * Z.pos m * 10 ^ Z.of_nat f + d)%Z).
    assert (Hv : (0 <= v)%Z) by (unfold v; nia).
    rewrite Z2N.id by (apply Z.div_pos; lia).
    pose proof (Z.mul_div_le v (2 * d) ltac:(lia)) as Hlo.
    pose proof (Z.mul_succ_div_gt v (2 * d) ltac:(lia)) as Hhi.
    unfold v in *. nia.
Qed.

(** ** Comparisons behind [fixedNotation] *)

Lemma SFltb_finite_bound (a : spec_float) (m : positive) (e : Z) :
  SFltb a (S754_finite false m e) = true ->
  a <> S754_nan /\ a <> S754_infinity false
  /\ SFleb (S754_finite false m e) a = false.
Proof.
  intros H. repeat split.
  - intros ->. discriminate H.
  - intros ->. discriminate H.
  - unfold SFleb. rewrite SFcompare_antisym.
    unfold SFltb in H.
    destruct (SFcompare a (S754_finite false m e)) as [[ | | ]|];
      (discriminate H || reflexivity).
Qed.

Lemma fixedNotation_branches (x : float) :
  fixedNotation x = true ->
  is_nan x = false /\ is_infinity x = false /\ (abs x >=? 1e21) = false.
Proof.
  unfold fixedNotation. intros H.
  rewrite ltb_spec in H.
  change (Prim2SF 1e21) with (S754_finite false 7629394531250000 17) in H.
  apply SFltb_finite_bound in H. destruct H as (Hnan & Hinf & Hle).
  repeat split.
  - destruct (is_nan x) eqn:E; [|reflexivity]. exfalso. apply Hnan.
    rewrite abs_spec. unfold Prim2SF. rewrite E. reflexivity.
  - unfold is_infinity. rewrite eqb_spec.
    change (Prim2SF infinity) with (S754_infinity false).
    unfold SFeqb.
    destruct (Prim2SF (abs x)) as [s|[|]| |s m e]; try reflexivity;
      try congruence; destruct s; reflexivity.
  - rewrite leb_spec.
    change (Prim2SF 1e21) with (S754_finite false 7629394531250000 17).
    exact Hle.
Qed.

(** In fixed notation [toFixed(f)] prints exactly [f] decimal places. *)
Lemma toFixed_fixedDecimals (f : nat) (x : float) :
  f <> 0%nat -> fixedNotation x = true ->
  Spec.fixedDecimals f (toFixed NumberToString f x).
Proof.
  clear toLowerCase.
  intros Hf Hx.
  destruct (fixedNotation_branches x Hx) as (Hnan & Hinf & Hbig).
  unfold toFixed. rewrite Hnan, Hinf, Hbig.
  assert (Hsign : (if x <? 0 then "-" else "") = ""
                  \/ (if x <? 0 then "-" else "") = "-")
    by (destruct (x <? 0); auto).
  set (sign := if x <? 0 then "-" else "") in *.
  destruct (Prim2SF (abs x)) as [s|s| |s m e];
    match goal with
    | |- Spec.fixedDecimals f (sign ++ place_point f ?n) =>
        destruct (place_point_fixedDecimals f n Hf)
          as (whole & fraction & -> & Hrest)
    end;
    exists sign, whole, fraction; intuition.
Qed.

(** ** The session history *)

(** The history is kept newest first: after a run of analyses it holds
    their rows in reverse order, in front of the rows it had. *)
Lemma history_analyseAll (name : string) (replies : list Data.t) :
  forall st : State.t,
    State.file st = Some name ->
    State.history (analyseAll st replies)
    = (rev (map (fun data =>
                   entry data (State.similarityThr st) (State.anomalyThr st)
                     name) replies)
       ++ State.history st)%list.
Proof.
  clear NumberToString.
  induction replies as [|data replies IH]; intros st Hfile; [reflexivity|].
  unfold analyseAll in *. simpl fold_left.
  rewrite (handleAnalyze_ok st name 200 data Hfile). cbn [fst].
  rewrite IH by reflexivity. cbn.
  rewrite <- app_assoc. reflexivity.
Qed.

Lemma nth_error_mapi {A B : Type} (f : A -> nat -> B) (xs : list A) :
  forall idx i,
    nth_error (mapi f idx xs) i
    = option_map (fun x => f x (idx + i)%nat) (nth_error xs i).
Proof.
  induction xs as [|x xs IH]; intros idx i.
  - destruct i; reflexivity.
  - destruct i as [|i]; simpl.
    + rewrite Nat.add_0_r. reflexivity.
    + rewrite IH. rewrite <- plus_n_Sm. reflexivity.
Qed.

Lemma length_mapi {A B : Type} (f : A -> nat -> B) (xs : list A) :
  forall idx, List.length (mapi f idx xs) = List.length xs.
Proof.
  induction xs as [|x xs IH]; intros idx; simpl;
    [reflexivity | now rewrite IH].
Qed.

(** C8: with an empty history the export raises the alert "No history to
    download." and nothing else: no file is produced, not even one with
    the header alone, and the state, the history with it, stays as it
    was. *)
Theorem C8_empty_history_exports_nothing (st : State.t) :
  State.history st = [] ->
  handleDownloadHistory st = (st, [alert "No history to download."]).
Proof.
  intros Hempty. unfold handleDownloadHistory. rewrite Hempty. reflexivity.
Qed.

(** ** What toFixed leaves in a cell *)

Lemma readDigits_decimal (n : N) : Spec.readDigits (decimal n) = Some n.
Proof.
  clear toLowerCase NumberToString.
  unfold Spec.readDigits, decimal, NilZero.string_of_uint.
  pose proof (Unsigned.of_to n) as Hn.
  destruct (N.to_uint n) eqn:E;
    try (rewrite <- E, NilEmpty.usu; cbn [option_map]; rewrite E, Hn;
         reflexivity).
  cbn in *. rewrite <- Hn. reflexivity.
Qed.

Lemma readDigits_zeros (k : nat) (s : string) :
  Spec.readDigits (repeat_char "0" k ++ s) = Spec.readDigits s.
Proof.
  clear toLowerCase NumberToString.
  induction k as [|k IH]; [reflexivity|].
  rewrite <- IH. unfold Spec.readDigits. cbn [repeat_char append].
  cbn [NilEmpty.uint_of_string].
  destruct (NilEmpty.uint_of_string (repeat_char "0" k ++ s));
    reflexivity.
Qed.

Lemma substring_all (s : string) : substring 0 (String.length s) s = s.
Proof.
  clear toLowerCase NumberToString.
  induction s as [|c s IH]; simpl; [reflexivity | now rewrite IH].
Qed.

Lemma substring_split (s : string) :
  forall a b : nat,
    (a + b = String.length s)%nat ->
    substring 0 a s ++ substring a b s = s.
Proof.
  clear toLowerCase NumberToString.
  induction s as [|c s IH]; intros a b H; simpl in H.
  - assert (a = 0%nat) by lia. assert (b = 0%nat) by lia.
    subst. reflexivity.
  - destruct a as [|a].
    + simpl in H. subst b. cbn [substring append].
      change (String c (substring 0 (String.length s) s) = String c s).
      rewrite substring_all. reflexivity.
    + cbn [substring append]. rewrite IH by lia. reflexivity.
Qed.

(** The digits on the two sides of the point are those of [n]. *)
Lemma place_point_digits (f : nat) (n : N) :
  f <> 0%nat ->
  exists whole fraction : string,
    place_point f n = whole ++ "." ++ fraction
    /\ whole <> "" /\ String.length fraction = f
    /\ Spec.readDigits (whole ++ fraction) = Some n.
Proof.
  clear toLowerCase NumberToString.
  intros Hf. unfold place_point.
  set (m0 := decimal n).
  set (m := if (String.length m0 <=? f)%nat
            then repeat_char "0" (f + 1 - String.length m0) ++ m0 else m0).
  assert (Hread : Spec.readDigits m = Some n).
  { unfold m. destruct (String.length m0 <=? f)%nat.
    - rewrite readDigits_zeros. apply readDigits_decimal.
    - apply readDigits_decimal. }
  assert (Hlen : (f + 1 <= String.length m)%nat).
  { unfold m. destruct (String.length m0 <=? f)%nat eqn:Hk.
    - apply Nat.leb_le in Hk.
      rewrite length_app, length_repeat_char. lia.
    - apply Nat.leb_gt in Hk. lia. }
  destruct (f =? 0)%nat eqn:Hzero; [apply Nat.eqb_eq in Hzero; lia|].
  exists (substring 0 (String.length m - f) m),
    (substring (String.length m - f) f m).
  split; [reflexivity|]. split; [|split].
  - intros Hempty.
    assert (Hl : String.length (substring 0 (String.length m - f) m)
                 = (String.length m - f)%nat)
      by (apply length_substring; lia).
    rewrite Hempty in Hl. simpl in Hl. lia.
  - apply length_substring. lia.
  - rewrite substring_split by lia. exact Hread.
Qed.

Lemma nearest_scaled_spec (f : nat) (m : positive) (e : Z) :
  Spec.nearest f m e (nearest_scaled f m e).
Proof.
  clear toLowerCase NumberToString.
  unfold Spec.nearest.
  destruct (nearest_scaled_nearest f m e) as [Hpos Hneg].
  destruct (Z.le_gt_cases 0 e) as [He | He].
  - rewrite (Hpos He).
    rewrite (Z.max_r 0 e) by lia. rewrite (Z.max_l 0 (- e)) by lia.
    change (2 ^ 0)%Z with 1%Z. lia.
  - specialize (Hneg He).
    rewrite (Z.max_l 0 e) by lia. rewrite (Z.max_r 0 (- e)) by lia.
    change (2 ^ 0)%Z with 1%Z. lia.
Qed.

Lemma SFeqb_abs_refl (a : spec_float) :
  a <> S754_nan -> SFeqb (SFabs a) (SFabs a) = true.
Proof.
  clear toLowerCase NumberToString.
  intros Ha. unfold SFeqb.
  destruct a as [s|s| |s m e]; try congruence; simpl; try reflexivity.
  rewrite Z.compare_refl.
  change (PosDef.Pos.compare_cont Eq m m) with (m ?= m)%positive.
  rewrite Pos.compare_refl. reflexivity.
Qed.

Lemma is_nan_abs (x : float) : is_nan x = false -> is_nan (abs x) = false.
Proof.
  clear toLowerCase NumberToString.
  intros Hx. unfold is_nan. rewrite eqb_spec, abs_spec.
  rewrite SFeqb_abs_refl by (apply is_nan_Prim2SF; assumption).
  reflexivity.
Qed.

(** [toFixed] leaves in a cell what [printed] says. *)
Lemma toFixed_printed (f : nat) (x : float) :
  f <> 0%nat -> printed f x (toFixed NumberToString f x).
Proof.
  clear toLowerCase.
  intros Hf. unfold printed. split; [|split; [|split]].
  - intros Hx.
    destruct (fixedNotation_branches x Hx) as (Hnan & Hinf & Hbig).
    unfold toFixed. rewrite Hnan, Hinf, Hbig.
    unfold fixedNotation in Hx. rewrite ltb_spec, abs_spec in Hx.
    change (Prim2SF 1e21) with (S754_finite false 7629394531250000 17) in Hx.
    apply SFltb_finite_bound in Hx. destruct Hx as (Hn & Hi & _).
    unfold Spec.printedFixed, Spec.nearestTo.
    rewrite abs_spec.
    destruct (Prim2SF x) as [s|s| |s m e]; cbn [SFabs] in *;
      try congruence.
    + destruct (place_point_digits f 0 Hf) as (whole & fraction & -> & H).
      exists whole, fraction, 0%N. intuition.
    + destruct (place_point_digits f (nearest_scaled f m e) Hf)
        as (whole & fraction & -> & H).
      exists whole, fraction, (nearest_scaled f m e).
      pose proof (nearest_scaled_spec f m e). intuition.
  - intros Hnan. unfold toFixed. rewrite Hnan. reflexivity.
  - intros Hnan Hinf. unfold toFixed. rewrite Hnan, Hinf. reflexivity.
  - intros Hnan Hinf Hx. unfold toFixed. rewrite Hnan, Hinf.
    rewrite (ge_negb_lt (abs x) 1e21 (is_nan_abs x Hnan) eq_refl).
    unfold fixedNotation in Hx. rewrite Hx. reflexivity.
Qed.

(** C9 (amended): for a history that is not empty the exported text is
    the header [index,file,verdict,prob_real,prob_fake,risk] followed by
    one comma-separated line per entry in the order of the history, which
    is newest first; the line of the entry at position [i] starts with
    the history's length minus [i] (the length for the newest, 1 for the
    oldest).  A probability that is finite and of magnitude below [10^21]
    is printed with exactly 3 decimal places, its digits being the
    integer nearest to 1000 times its magnitude; one that is not finite
    is printed as NaN, Infinity or -Infinity, and one of magnitude
    [10^21] or more as Number::toString prints it. *)
Theorem C9_export_format (st : State.t) :
  State.history st <> [] ->
  exists lines : list string,
    handleDownloadHistory st
    = (st, [download "voice_auth_session_history.csv" "text/csv"
              ("index,file,verdict,prob_real,prob_fake,risk"
               ++ newline ++ join newline lines)])
    /\ List.length lines = List.length (State.history st)
    /\ forall (i : nat) (h : Entry.t),
        nth_error (State.history st) i = Some h ->
        exists prob_real prob_fake : string,
          nth_error lines i
          = Some (decimal (N.of_nat (List.length (State.history st) - i))
                  ++ "," ++ Entry.file h ++ "," ++ Entry.verdict h
                  ++ "," ++ prob_real ++ "," ++ prob_fake
                  ++ "," ++ Entry.risk h)
          /\ printed 3 (Entry.probReal h) prob_real
          /\ printed 3 (Entry.probFake h) prob_fake.
Proof.
  intros Hnonempty.
  exists (map (join ",") (rows (State.history st))). split; [|split].
  - unfold handleDownloadHistory, csv.
    destruct (State.history st) as [|h hist] eqn:Hhist; [congruence|].
    reflexivity.
  - unfold rows. rewrite length_map, length_mapi. reflexivity.
  - intros i h Hnth.
    exists (toFixed NumberToString 3 (Entry.probReal h)),
      (toFixed NumberToString 3 (Entry.probFake h)).
    split; [|split; apply toFixed_printed; discriminate].
    unfold rows. rewrite nth_error_map, nth_error_mapi, Hnth.
    reflexivity.
Qed.

(** ** Further properties of the decision stack *)

Ltac order_cases :=
  repeat match goal with
    | H : context [(?p ?= ?q)%Z] |- _ =>
        destruct (Z.compare_spec p q); try discriminate H
    | |- context [(?p ?= ?q)%Z] => destruct (Z.compare_spec p q)
    | H : context [(?p ?= ?q)%positive] |- _ =>
        destruct (Pos.compare_spec p q); try discriminate H
    | |- context [(?p ?= ?q)%positive] => destruct (Pos.compare_spec p q)
    end.

Lemma SFltb_leb_trans (x a b : spec_float) :
  SFltb x a = true -> SFleb a b = true -> SFltb x b = true.
Proof.
  clear toLowerCase NumberToString.
  unfold SFltb, SFleb.
  destruct x as [sx|sx| |sx mx ex], a as [sa|sa| |sa ma ea],
    b as [sb|sb| |sb mb eb]; simpl;
    try discriminate; try (intros; reflexivity);
    try (destruct sx, sa; simpl; discriminate);
    try (destruct sa, sb; simpl; discriminate);
    try (destruct sx, sb; simpl; (discriminate || reflexivity)).
  all: repeat change (PosDef.Pos.compare_cont Eq ?p ?q) with (Pos.compare p q).
  all: try (destruct sx, sa, sb; simpl; intros H1 H2;
            try discriminate; try reflexivity;
            order_cases; simpl in *; try discriminate; try reflexivity;
            subst; try lia).
Qed.

Lemma ltb_leb_trans (x a b : float) :
  (x <? a) = true -> (a <=? b) = true -> (x <? b) = true.
Proof.
  rewrite !ltb_spec, leb_spec. apply SFltb_leb_trans.
Qed.

Lemma lt_half_lowReal (x : float) :
  (x <? 0.5) = true -> (x <? 0.6) = true.
Proof.
  rewrite !ltb_spec.
  change (Prim2SF 0.5) with (S754_finite false 4503599627370496 (-53)).
  change (Prim2SF 0.6) with (S754_finite false 5404319552844595 (-53)).
  apply SFltb_widen. reflexivity.
Qed.

Lemma anomalous_mono (data : Data.t) (ano ano' : float) :
  (ano <=? ano') = true ->
  anomalous data ano = true -> anomalous data ano' = true.
Proof.
  unfold anomalous, field_lt. intros Hle H.
  apply andb_true_iff in H. destruct H as [Hnull Hlt].
  rewrite Hnull. apply (ltb_leb_trans _ _ _ Hlt Hle).
Qed.

Lemma mismatch_mono (data : Data.t) (sim sim' : float) :
  (sim <=? sim') = true ->
  mismatch data sim = true -> mismatch data sim' = true.
Proof.
  unfold mismatch, field_lt. intros Hle H.
  apply andb_true_iff in H. destruct H as [Hguard Hlt].
  rewrite Hguard. apply (ltb_leb_trans _ _ _ Hlt Hle).
Qed.

(** The final verdict is ACCEPT exactly when the base verdict is ACCEPT
    and none of the three conditions holds. *)
Lemma finalVerdict_accept (data : Data.t) (sim ano : float) :
  finalVerdict data sim ano = "ACCEPT"
  <-> baseVerdict data = "ACCEPT" /\ lowReal data = false
      /\ anomalous data ano = false /\ mismatch data sim = false.
Proof.
  clear NumberToString.
  unfold finalVerdict. rewrite reasons_empty.
  destruct (baseVerdict_cases data) as [Hbase | Hbase]; rewrite Hbase;
    destruct (lowReal data), (anomalous data ano), (mismatch data sim);
    cbn; intuition discriminate.
Qed.

Lemma finalVerdict_reject (data : Data.t) (sim ano : float) :
  finalVerdict data sim ano = "REJECT" <-> baseVerdict data = "REJECT".
Proof.
  clear NumberToString.
  unfold finalVerdict. rewrite reasons_empty.
  destruct (baseVerdict_cases data) as [Hbase | Hbase]; rewrite Hbase;
    destruct (lowReal data), (anomalous data ano), (mismatch data sim);
    cbn; intuition discriminate.
Qed.

Lemma finalVerdict_suspicious (data : Data.t) (sim ano : float) :
  finalVerdict data sim ano = "SUSPICIOUS"
  <-> baseVerdict data = "ACCEPT"
      /\ lowReal data || anomalous data ano || mismatch data sim = true.
Proof.
  clear NumberToString.
  unfold finalVerdict. rewrite reasons_empty.
  destruct (baseVerdict_cases data) as [Hbase | Hbase]; rewrite Hbase;
    destruct (lowReal data), (anomalous data ano), (mismatch data sim);
    cbn; intuition discriminate.
Qed.

(** X1: raising either threshold never drops a reason, never lowers the
    risk score, and never turns a verdict that is not ACCEPT into ACCEPT:
    a sample accepted under the higher thresholds is accepted under the
    lower ones. *)
Theorem X1_higher_thresholds_flag_more
    (data : Data.t) (sim sim' ano ano' : float) :
  (sim <=? sim') = true -> (ano <=? ano') = true ->
  incl (reasons data sim ano) (reasons data sim' ano')
  /\ (riskScore data sim ano <= riskScore data sim' ano')%N
  /\ (finalVerdict data sim' ano' = "ACCEPT" ->
      finalVerdict data sim ano = "ACCEPT").
Proof.
  clear NumberToString.
  intros Hsim Hano.
  pose proof (anomalous_mono data ano ano' Hano) as Ha.
  pose proof (mismatch_mono data sim sim' Hsim) as Hm.
  rewrite !finalVerdict_accept, !riskScore_eq, !reasons_eq.
  destruct (anomalous data ano), (anomalous data ano');
    try (specialize (Ha eq_refl); discriminate Ha);
    destruct (mismatch data sim), (mismatch data sim');
    try (specialize (Hm eq_refl); discriminate Hm);
    destruct (lowReal data); cbn;
    (repeat split;
     [intros r Hr; cbn in *; tauto | lia | intuition discriminate ..]).
Qed.

(** X2: the thresholds never decide about REJECT: whether the final
    verdict is REJECT is the same under any two pairs of thresholds, and
    it is REJECT exactly when the backend verdict is ["fake"] and
    [prob_fake] is above 0.6. *)
Theorem X2_thresholds_never_touch_reject
    (data : Data.t) (sim sim' ano ano' : float) :
  (finalVerdict data sim ano = "REJECT"
   <-> finalVerdict data sim' ano' = "REJECT")
  /\ (finalVerdict data sim ano = "REJECT"
      <-> backendVerdict data = "fake" /\ (probFake data >? 0.6) = true).
Proof.
  clear NumberToString.
  rewrite !finalVerdict_reject. split; [tauto|].
  unfold baseVerdict.
  destruct (String.eqb_spec (backendVerdict data) "fake") as [Hv | Hv];
    destruct (probFake data >? 0.6); cbn; intuition discriminate.
Qed.

(** X3: a sample whose [prob_real] is a number and whose final verdict is
    ACCEPT is rated Low. *)
Theorem X3_accepted_is_low_risk (data : Data.t) (sim ano : float) :
  is_nan (probReal data) = false ->
  finalVerdict data sim ano = "ACCEPT" ->
  riskString data sim ano = "Low".
Proof.
  clear NumberToString.
  intros Hnan Haccept.
  apply finalVerdict_accept in Haccept.
  destruct Haccept as (_ & Hlow & Hano & Hmis).
  assert (Hhalf : (probReal data <? 0.5) = false).
  { destruct (probReal data <? 0.5) eqn:E; [|reflexivity].
    apply lt_half_lowReal in E. unfold lowReal in Hlow. congruence. }
  unfold riskString. rewrite Hhalf, riskScore_eq, Hano, Hmis.
  unfold probPoints.
  rewrite (ge_negb_lt (probReal data) 0.5 Hnan eq_refl), Hhalf.
  destruct (probReal data >=? 0.75); reflexivity.
Qed.

(** X4: in the first and third revisions the risk level is the number
    of reasons: Low without a reason, Medium with one, High with two or
    three; so an accepted sample is rated Low there as well. *)
Theorem X4_rev1_risk_counts_reasons (data : Data.t) (sim ano : float) :
  riskLevel data sim ano = N.of_nat (List.length (reasons data sim ano))
  /\ (riskString_rev1 data sim ano = "Low" <-> reasons data sim ano = [])
  /\ (riskString_rev1 data sim ano = "Medium"
      <-> List.length (reasons data sim ano) = 1%nat)
  /\ (riskString_rev1 data sim ano = "High"
      <-> (2 <= List.length (reasons data sim ano))%nat)
  /\ (finalVerdict data sim ano = "ACCEPT" ->
      riskString_rev1 data sim ano = "Low").
Proof.
  clear NumberToString.
  rewrite finalVerdict_accept, reasons_eq.
  unfold riskString_rev1, riskLevel.
  destruct (lowReal data), (anomalous data ano), (mismatch data sim); cbn;
    repeat split; intros; try discriminate; try reflexivity; try lia;
    intuition discriminate.
Qed.

(** X5: a SUSPICIOUS result always carries at least one reason, and the
    reason list is rendered for it outside jury mode; an ACCEPT result
    carries none; in jury mode the list is never rendered. *)
Theorem X5_suspicious_comes_with_reasons
    (data : Data.t) (sim ano : float) (name : string) (juryMode : bool) :
  let result := merged data sim ano name in
  (Merged.verdict_frontend result = "SUSPICIOUS" ->
   Merged.reasons result <> [] /\ showReasons false result = true)
  /\ (Merged.verdict_frontend result = "ACCEPT" ->
      Merged.reasons result = [] /\ showReasons juryMode result = false)
  /\ showReasons true result = false.
Proof.
  clear NumberToString.
  cbn. unfold showReasons. cbn.
  rewrite finalVerdict_accept, finalVerdict_suspicious, reasons_eq.
  destruct (lowReal data), (anomalous data ano), (mismatch data sim),
    juryMode; cbn; repeat split; intros; try discriminate;
    intuition discriminate.
Qed.

(** X6: for a stored result the pill, the class of the verdict card and
    the tag of the history row agree: all three show the accept, the
    reject or the suspicious variant, and which one is decided by the
    final verdict. *)
Theorem X6_pill_card_and_tag_agree
    (data : Data.t) (sim ano : float) (name : string) :
  let result := merged data sim ano name in
  let shown :=
    (label (verdictStyle (Some result)), cls (verdictStyle (Some result)),
     verdictClass result, tagClass (entry data sim ano name)) in
  (finalVerdict data sim ano = "ACCEPT" ->
   shown = ("AUTHENTIC", "pill-real", "verdict verdict-accept",
            "tag tag-real"))
  /\ (finalVerdict data sim ano = "REJECT" ->
      shown = ("SUSPECTED SPOOF", "pill-fake", "verdict verdict-reject",
               "tag tag-fake"))
  /\ (finalVerdict data sim ano = "SUSPICIOUS" ->
      shown = ("SUSPICIOUS", "pill-susp", "verdict verdict-suspicious",
               "tag tag-susp"))
  /\ (finalVerdict data sim ano = "ACCEPT"
      \/ finalVerdict data sim ano = "REJECT"
      \/ finalVerdict data sim ano = "SUSPICIOUS").
Proof.
  clear NumberToString.
  unfold verdictStyle, verdictClass, tagClass. cbn.
  repeat split; try (intros ->; reflexivity).
  unfold finalVerdict.
  destruct (String.eqb (baseVerdict data) "ACCEPT"
            && (List.length (reasons data sim ano) =? 0)%nat); auto.
  destruct (String.eqb (baseVerdict data) "REJECT"); auto.
Qed.

(** ** Further properties of the handlers *)

(** The two ways [handleAnalyze] ends. *)
Lemma handleAnalyze_cases (st : State.t) (net : Fetched) :
  let st' := fst (handleAnalyze st net) in
  let effects := snd (handleAnalyze st net) in
  State.file st' = State.file st
  /\ State.similarityThr st' = State.similarityThr st
  /\ State.anomalyThr st' = State.anomalyThr st
  /\ ((effects = []
       /\ exists (name : string) (data : Data.t),
           State.file st = Some name
           /\ State.loading st' = false
           /\ State.result st'
              = Some (merged data (State.similarityThr st)
                        (State.anomalyThr st) name)
           /\ State.history st'
              = entry data (State.similarityThr st) (State.anomalyThr st)
                  name :: State.history st)
      \/ ((exists message : string, In (alert message) effects)
          /\ State.result st' = State.result st
          /\ State.history st' = State.history st)).
Proof.
  clear NumberToString.
  unfold handleAnalyze.
  destruct (State.file st) as [name|] eqn:Hfile.
  - destruct net as [message | [|] status [message | data]]; cbn;
      rewrite ?Hfile; repeat split;
      try (right; repeat split; eexists; cbn; eauto; fail).
    left. split; [reflexivity|]. exists name, data. repeat split.
  - cbn. repeat split; try assumption.
    right. repeat split. eexists. left. reflexivity.
Qed.


(** X8: right after an analysis that stored a result the export never
    answers with the alert: it produces the file, and the line under the
    header is the row of the sample just analysed, numbered with the new
    length of the history. *)
Theorem X8_export_after_analysis
    (st : State.t) (name : string) (status : N) (data : Data.t) :
  State.file st = Some name ->
  let sim := State.similarityThr st in
  let ano := State.anomalyThr st in
  let st' := fst (handleAnalyze st (Replied true status (inr data))) in
  exists older : list string,
    handleDownloadHistory st'
    = (st', [download "voice_auth_session_history.csv" "text/csv"
               (join newline
                  ("index,file,verdict,prob_real,prob_fake,risk"
                   :: (decimal (N.of_nat (S (List.length (State.history st))))
                       ++ "," ++ name ++ "," ++ finalVerdict data sim ano
                       ++ "," ++ toFixed NumberToString 3 (probReal data)
                       ++ "," ++ toFixed NumberToString 3 (probFake data)
                       ++ "," ++ riskString data sim ano)
                   :: older))])
    /\ List.length older = List.length (State.history st).
Proof.
  intros Hfile sim ano st'.
  exists (map (join ",")
            (mapi (row (S (List.length (State.history st)))) 1
               (State.history st))).
  unfold st'. rewrite (handleAnalyze_ok st name status data Hfile).
  split; [reflexivity|].
  rewrite length_map, length_mapi. reflexivity.
Qed.

Lemma map_mapi {A B C : Type} (g : B -> C) (f : A -> nat -> B)
    (xs : list A) :
  forall idx, map g (mapi f idx xs) = mapi (fun x i => g (f x i)) idx xs.
Proof.
  clear toLowerCase NumberToString.
  induction xs as [|x xs IH]; intros idx; simpl;
    [reflexivity | now rewrite IH].
Qed.

Lemma mapi_countdown {A B : Type} (F : nat -> B) (len : nat)
    (xs : list A) :
  forall idx,
    (idx + List.length xs = len)%nat ->
    mapi (fun _ i => F (len - i)%nat) idx xs
    = map F (rev (seq 1 (List.length xs))).
Proof.
  clear toLowerCase NumberToString.
  induction xs as [|x xs IH]; intros idx Hlen; [reflexivity|].
  cbn [mapi List.length]. rewrite seq_S, rev_app_distr. cbn [rev app map].
  cbn [List.length] in Hlen.
  rewrite (IH (S idx)) by lia.
  f_equal. f_equal. lia.
Qed.

Lemma mapi_const {A B : Type} (g : A -> B) (xs : list A) :
  forall idx, mapi (fun x _ => g x) idx xs = map g xs.
Proof.
  clear toLowerCase NumberToString.
  induction xs as [|x xs IH]; intros idx; simpl;
    [reflexivity | now rewrite IH].
Qed.

(** X9: the history table and the exported text show the same index,
    file, verdict and risk in every row, the index counting down from
    the number of rows to 1; they differ only in the probabilities, which
    the table prints with two decimals. *)
Theorem X9_table_and_export_agree (hist : list Entry.t) :
  let shared (cells : list string) :=
    (nth 0 cells "", nth 1 cells "", nth 2 cells "", nth 5 cells "") in
  map shared (tableRows hist) = map shared (rows hist)
  /\ map (fun cells => nth 0 cells "") (tableRows hist)
     = map (fun k => decimal (N.of_nat k))
         (rev (seq 1 (List.length hist)))
  /\ map (fun cells => (nth 3 cells "", nth 4 cells ""))
       (tableRows hist)
     = map (fun h => (toFixed NumberToString 2 (Entry.probReal h),
                      toFixed NumberToString 2 (Entry.probFake h))) hist.
Proof.
  intros shared. unfold tableRows, rows. rewrite !map_mapi. cbn.
  repeat split.
  - apply (mapi_countdown (fun k => decimal (N.of_nat k))). reflexivity.
  - apply mapi_const.
Qed.

(** X10: the internal metrics of a stored result fail to render exactly
    when the reply lacked the [iso_score] or the [similarity] key, which
    the analysis itself accepts; a [null] there is shown as None, and the
    two probabilities always render. *)
Theorem X10_metrics_need_the_keys
    (data : Data.t) (sim ano : float) (name : string) :
  let result := merged data sim ano name in
  (metrics result = None
   <-> Data.iso_score data = Absent \/ Data.similarity data = Absent)
  /\ (Data.iso_score data = Null -> Data.similarity data = Null ->
      metrics result
      = Some ["Prob. real: " ++ toFixed NumberToString 3 (probReal data);
              "Prob. fake: " ++ toFixed NumberToString 3 (probFake data);
              "Anomaly score: None"; "Similarity: None"]).
Proof.
  cbn. unfold metrics. cbn. split.
  - destruct (Data.iso_score data), (Data.similarity data); cbn;
      intuition discriminate.
  - intros -> ->. reflexivity.
Qed.

(** X11: [handleLoadExample] either selects the example, naming the file
    after the last segment of its path and setting the preview, or
    raises an alert and leaves the page as it was; with no example
    chosen it always alerts. *)
Theorem X11_example_loads_or_alerts
    (p : Page.t) (net : Loaded) (url : string) :
  let p' := fst (handleLoadExample p net url) in
  let effects := snd (handleLoadExample p net url) in
  (effects = [] /\ net = LoadReplied true
   /\ Page.audioUrl p' = Some url
   /\ ((Page.exampleKey p = key_real_enrolled
        /\ State.file (Page.app p') = Some "real_enrolled.wav")
       \/ (Page.exampleKey p = key_fake_tts
           /\ State.file (Page.app p') = Some "fake_tts.wav"))
   /\ State.history (Page.app p') = State.history (Page.app p)
   /\ State.result (Page.app p') = State.result (Page.app p))
  \/ (p' = p /\ (exists message : string, In (alert message) effects)
      /\ (Page.exampleKey p = key_none \/ net <> LoadReplied true)).
Proof.
  clear toLowerCase NumberToString.
  unfold handleLoadExample.
  destruct (Page.exampleKey p) eqn:Hkey; cbn.
  - right. repeat split; [eexists; left; reflexivity | left; reflexivity].
  - destruct net as [message | [|]]; cbn.
    + right. repeat split;
        [eexists; right; left; reflexivity | right; discriminate].
    + left. repeat split. left. split; reflexivity.
    + right. repeat split;
        [eexists; right; left; reflexivity | right; discriminate].
  - destruct net as [message | [|]]; cbn.
    + right. repeat split;
        [eexists; right; left; reflexivity | right; discriminate].
    + left. repeat split. right. split; reflexivity.
    + right. repeat split;
        [eexists; right; left; reflexivity | right; discriminate].
Qed.

(** ** What every sequence of events keeps *)

Lemma run_app (p : Page.t) (e : Event) (events : list Event) :
  run p (e :: events) = run (fst (step p e)) events.
Proof. reflexivity. Qed.

Lemma riskString_cases (data : Data.t) (sim ano : float) :
  In (riskString data sim ano) ["Low"; "Medium"; "High"].
Proof.
  clear toLowerCase NumberToString.
  unfold riskString.
  destruct (probReal data <? 0.5); [cbn; tauto|].
  destruct (riskScore data sim ano <=? 1)%N; [cbn; tauto|].
  destruct (riskScore data sim ano =? 2)%N; cbn; tauto.
Qed.

Lemma finalVerdict_cases (data : Data.t) (sim ano : float) :
  In (finalVerdict data sim ano) ["ACCEPT"; "REJECT"; "SUSPICIOUS"].
Proof.
  clear NumberToString.
  unfold finalVerdict.
  destruct (String.eqb (baseVerdict data) "ACCEPT"
            && (List.length (reasons data sim ano) =? 0)%nat);
    [cbn; tauto|].
  destruct (String.eqb (baseVerdict data) "REJECT"); cbn; tauto.
Qed.

(** What one event does to the history: nothing, or one labelled row in
    front. *)
Lemma step_history (p : Page.t) (e : Event) :
  State.history (Page.app (fst (step p e))) = State.history (Page.app p)
  \/ exists h : Entry.t,
      wellLabelled h
      /\ State.history (Page.app (fst (step p e)))
         = h :: State.history (Page.app p).
Proof.
  destruct e as [f url | key | net url | x | x | net | | | |]; cbn;
    try (left; reflexivity).
  - left. unfold onFileChange. destruct f; reflexivity.
  - unfold handleLoadExample.
    destruct (EXAMPLE_MAP (Page.exampleKey p)); [|left; reflexivity].
    destruct net as [message | [|]]; left; reflexivity.
  - pose proof (handleAnalyze_cases (Page.app p) net) as H.
    cbn in H. destruct (handleAnalyze (Page.app p) net) as [st effects].
    cbn in *. destruct H as (_ & _ & _ & [H | H]).
    + destruct H as (_ & name & data & _ & _ & _ & Hhist).
      right. eexists. split; [|exact Hhist].
      split; [apply finalVerdict_cases | apply riskString_cases].
    + left. apply H.
  - unfold handleDownloadHistory.
    destruct (List.length (State.history (Page.app p)) =? 0)%nat;
      left; reflexivity.
Qed.

(** X12: the session history is append-only: whatever the user does and
    however the requests end, the rows that were there stay, in their
    order, behind the new ones, and every new row carries one of the
    three verdicts and one of the three risk levels. *)
Theorem X12_history_is_append_only (events : list Event) :
  forall p : Page.t,
  exists newer : list Entry.t,
    State.history (Page.app (run p events))
    = (newer ++ State.history (Page.app p))%list
    /\ Forall wellLabelled newer.
Proof.
  induction events as [|e events IH]; intros p.
  - exists []. split; [reflexivity | constructor].
  - rewrite run_app. destruct (IH (fst (step p e))) as (newer & Hrun & Hok).
    destruct (step_history p e) as [Hsame | (h & Hh & Hcons)].
    + exists newer. rewrite Hrun, Hsame. split; [reflexivity | assumption].
    + exists (newer ++ [h])%list. rewrite Hrun, Hcons, <- app_assoc.
      split; [reflexivity|].
      apply Forall_app. split; [assumption|].
      constructor; [assumption | constructor].
Qed.

Lemma zoomOut_levels (z : float) :
  In z zoomLevels -> In (Math_max 0.5 (z - 0.25)) zoomLevels.
Proof.
  clear toLowerCase NumberToString.
  unfold zoomLevels. cbn [In]. intros H.
  repeat (destruct H as [<- | H]; [vm_compute; auto 20|]).
  contradiction.
Qed.

Lemma zoomIn_levels (z : float) :
  In z zoomLevels -> In (Math_min 3 (z + 0.25)) zoomLevels.
Proof.
  clear toLowerCase NumberToString.
  unfold zoomLevels. cbn [In]. intros H.
  repeat (destruct H as [<- | H]; [vm_compute; auto 20|]).
  contradiction.
Qed.

Lemma step_zoom (p : Page.t) (e : Event) :
  In (Page.zoom p) zoomLevels -> In (Page.zoom (fst (step p e))) zoomLevels.
Proof.
  intros Hz.
  destruct e as [f url | key | net url | x | x | net | | | |]; cbn;
    try assumption.
  - unfold onFileChange. destruct f; assumption.
  - unfold handleLoadExample.
    destruct (EXAMPLE_MAP (Page.exampleKey p)); [|assumption].
    destruct net as [message | [|]]; assumption.
  - destruct (handleAnalyze (Page.app p) net). assumption.
  - destruct (handleDownloadHistory (Page.app p)). assumption.
  - apply zoomOut_levels. assumption.
  - apply zoomIn_levels. assumption.
  - unfold zoomLevels. cbn. auto 20.
Qed.

(** X13: the zoom never leaves the range from 0.5 to 3: from a factor
    that is one of the eleven quarter steps in that range, every sequence
    of events leads to such a factor again, and the label next to the
    buttons shows it as a whole percentage between 50% and 300%. *)
Theorem X13_zoom_stays_in_range (events : list Event) :
  forall p : Page.t,
    In (Page.zoom p) zoomLevels ->
    let p' := run p events in
    In (Page.zoom p') zoomLevels
    /\ (0.5 <=? Page.zoom p') = true /\ (Page.zoom p' <=? 3) = true
    /\ In (zoomLabel p')
         ["50%"; "75%"; "100%"; "125%"; "150%"; "175%"; "200%"; "225%";
          "250%"; "275%"; "300%"].
Proof.
  induction events as [|e events IH]; intros p Hz.
  - cbn. split; [assumption|].
    unfold zoomLabel. revert Hz. generalize (Page.zoom p). intros z.
    unfold zoomLevels. cbn [In]. intros H.
    repeat (destruct H as [<- | H]; [vm_compute; auto 20|]).
    contradiction.
  - rewrite run_app. apply IH. apply step_zoom. assumption.
Qed.

Lemma step_preview (p : Page.t) (e : Event) :
  previewMatchesFile p -> previewMatchesFile (fst (step p e)).
Proof.
  unfold previewMatchesFile. intros Hp.
  destruct e as [f url | key | net url | x | x | net | | | |]; cbn;
    try assumption.
  - unfold onFileChange. destruct f; cbn; intuition discriminate.
  - unfold handleLoadExample.
    destruct (Page.exampleKey p); cbn; try assumption;
      destruct net as [message | [|]]; cbn; try assumption;
      intuition discriminate.
  - pose proof (handleAnalyze_cases (Page.app p) net) as H.
    cbn in H. destruct (handleAnalyze (Page.app p) net) as [st effects].
    cbn in *. destruct H as (-> & _). assumption.
  - unfold handleDownloadHistory.
    destruct (List.length (State.history (Page.app p)) =? 0)%nat;
      assumption.
Qed.

(** X14: the audio preview and the selected file go together: if the
    page has a preview exactly when it has a file, it still does after
    any sequence of events. *)
Theorem X14_preview_follows_file (events : list Event) :
  forall p : Page.t,
    previewMatchesFile p -> previewMatchesFile (run p events).
Proof.
  induction events as [|e events IH]; intros p Hp; [assumption|].
  rewrite run_app. apply IH. apply step_preview. assumption.
Qed.

(** X15: both probabilities of a history row are shown in the table
    with exactly two decimal places, whenever they are numbers toFixed
    prints in fixed notation. *)
Theorem X15_table_shows_two_decimals
    (hist : list Entry.t) (i : nat) (h : Entry.t) :
  nth_error hist i = Some h ->
  fixedNotation (Entry.probReal h) = true ->
  fixedNotation (Entry.probFake h) = true ->
  exists cells : list string,
    nth_error (tableRows hist) i = Some cells
    /\ nth 3 cells "" = toFixed NumberToString 2 (Entry.probReal h)
    /\ nth 4 cells "" = toFixed NumberToString 2 (Entry.probFake h)
    /\ Spec.fixedDecimals 2 (nth 3 cells "")
    /\ Spec.fixedDecimals 2 (nth 4 cells "").
Proof.
  intros Hnth Hreal Hfake.
  exists (tableRow (List.length hist) h i). split.
  - unfold tableRows. rewrite nth_error_mapi, Hnth. reflexivity.
  - cbn. repeat split;
      apply toFixed_fixedDecimals; (assumption || discriminate).
Qed.

Lemma step_keeps_result (p : Page.t) (e : Event) :
  (forall net : Fetched, e <> Analyze net) ->
  State.result (Page.app (fst (step p e))) = State.result (Page.app p)
  /\ State.history (Page.app (fst (step p e)))
     = State.history (Page.app p).
Proof.
  intros Hother.
  destruct e as [f url | key | net url | x | x | net | | | |]; cbn;
    try (split; reflexivity).
  - unfold onFileChange. destruct f; split; reflexivity.
  - unfold handleLoadExample.
    destruct (EXAMPLE_MAP (Page.exampleKey p)); [|split; reflexivity].
    destruct net as [message | [|]]; split; reflexivity.
  - destruct (Hother net). reflexivity.
  - unfold handleDownloadHistory.
    destruct (List.length (State.history (Page.app p)) =? 0)%nat;
      split; reflexivity.
Qed.

(** X16: only an analysis touches the stored result: a sequence of
    events without one (choosing files, loading examples, moving the two
    sliders, zooming, exporting) leaves the result, with the thresholds
    recorded in it, and the history as they were. *)
Theorem X16_result_outlives_the_sliders (events : list Event) :
  forall p : Page.t,
    Forall (fun e => forall net : Fetched, e <> Analyze net) events ->
    State.result (Page.app (run p events)) = State.result (Page.app p)
    /\ State.history (Page.app (run p events))
       = State.history (Page.app p).
Proof.
  induction events as [|e events IH]; intros p Hall; [split; reflexivity|].
  inversion Hall as [|e' events' He Hrest]; subst.
  rewrite run_app.
  destruct (IH (fst (step p e)) Hrest) as [Hresult Hhistory].
  destruct (step_keeps_result p e He) as [Hr Hh].
  rewrite Hresult, Hhistory, Hr, Hh. split; reflexivity.
Qed.

(** X17: after a run of analyses that all store a result, the history
    holds their rows newest first, in front of the rows it had. *)
Theorem X17_history_is_newest_first
    (name : string) (replies : list Data.t) (st : State.t) :
  State.file st = Some name ->
  State.history (analyseAll st replies)
  = (rev (map (fun data =>
                 entry data (State.similarityThr st) (State.anomalyThr st)
                   name) replies)
     ++ State.history st)%list.
Proof. apply history_analyseAll. Qed.

End App.

(** ** The claims at concrete inputs *)

(** C1, as claimed, fails: the backend calls the sample real, [prob_fake]
    is 0.7, and the final verdict is ACCEPT. *)
Lemma C1_counterexample :
  (probFake Samples.realButLikelyFake >? 0.6) = true
  /\ finalVerdict Samples.asciiLower Samples.realButLikelyFake 0.8 0.0
     = "ACCEPT"
  /\ finalVerdict Samples.asciiLower Samples.realButLikelyFake 0.8 0.0
     <> "REJECT".
Proof. repeat split. discriminate. Qed.

(** C1 (amended) at a reply the backend calls FAKE, with [prob_fake] 0.7. *)
Lemma C1_witness :
  finalVerdict Samples.asciiLower Samples.fake 0.8 0.0 = "REJECT".
Proof.
  exact (C1_reject_when_backend_says_fake Samples.asciiLower Samples.fake
           0.8 0.0 eq_refl eq_refl).
Defined.

(** C2 at scenario 3 of the specification: 1 + 1 + 1 = 3, rated High. *)
Lemma C2_witness :
  riskScore Samples.allFail 0.8 0.0 = 3%N
  /\ Spec.riskTier 3 (riskString Samples.allFail 0.8 0.0).
Proof.
  destruct (C2_risk_score_and_tier Samples.allFail 0.8 0.0 eq_refl)
    as [Hscore Htier].
  split; [exact Hscore | exact (Htier eq_refl)].
Defined.

(** C3 at [prob_real] 0.3 with no other check failing. *)
Lemma C3_witness : riskString Samples.fake 0.8 0.0 = "High".
Proof. exact (C3_high_risk_override Samples.fake 0.8 0.0 eq_refl). Defined.

(** C4, as claimed, fails: when all three checks fail the reasons come in
    the order spoof, anomaly, mismatch, not mismatch, anomaly, spoof. *)
Lemma C4_counterexample :
  mismatch Samples.allFail 0.8 = true
  /\ anomalous Samples.allFail 0.0 = true
  /\ lowReal Samples.allFail = true
  /\ reasons Samples.allFail 0.8 0.0
     = ["Spoof model: low real probability";
        "Anomaly detector: unusual embedding";
        "Speaker mismatch: low similarity"]
  /\ reasons Samples.allFail 0.8 0.0
     <> ["Speaker mismatch: low similarity";
         "Anomaly detector: unusual embedding";
         "Spoof model: low real probability"].
Proof. repeat split. discriminate. Qed.

(** C8 at a state whose history is empty. *)
Lemma C8_witness :
  handleDownloadHistory Samples.noHugeNumbers (Samples.withHistory [])
  = (Samples.withHistory [], [alert "No history to download."]).
Proof.
  exact (C8_empty_history_exports_nothing Samples.noHugeNumbers
           (Samples.withHistory []) eq_refl).
Defined.

(** C9, as claimed, fails: a [prob_real] beyond the binary64 range is
    stored as Infinity by the analysis, and the export prints it by name,
    which is not a number with three decimal places. *)
Lemma C9_counterexample :
  State.history
    (fst (handleAnalyze Samples.asciiLower (Samples.selected "a.wav")
            (Replied true 200 (inr Samples.overflow))))
  <> []
  /\ snd (handleDownloadHistory Samples.noHugeNumbers
            (fst (handleAnalyze Samples.asciiLower
                    (Samples.selected "a.wav")
                    (Replied true 200 (inr Samples.overflow)))))
     = [download "voice_auth_session_history.csv" "text/csv"
          ("index,file,verdict,prob_real,prob_fake,risk" ++ newline
           ++ "1,a.wav,ACCEPT,Infinity,0.000,Low")]
  /\ toFixed Samples.noHugeNumbers 3 infinity = "Infinity"
  /\ ~ Spec.fixedDecimals 3 "Infinity".
Proof.
  split; [discriminate|]. split; [vm_compute; reflexivity|].
  split; [reflexivity|].
  intros (sign & whole & fraction & Heq & Hsign & Hwhole & Hdigits & _).
  destruct Hsign as [-> | ->]; [|discriminate Heq].
  destruct whole as [|c whole]; [congruence|].
  cbn in Heq. injection Heq as Hc _. subst c. discriminate Hdigits.
Qed.

(** C9 (amended) at a history of two rows: the two lines under the
    header, digit for digit. *)
Lemma C9_witness :
  exists lines : list string,
    handleDownloadHistory Samples.noHugeNumbers
      (Samples.withHistory Samples.twoRows)
    = (Samples.withHistory Samples.twoRows,
       [download "voice_auth_session_history.csv" "text/csv"
          ("index,file,verdict,prob_real,prob_fake,risk"
           ++ newline ++ join newline lines)])
    /\ List.length lines = 2%nat
    /\ join newline lines
       = "2,b.wav,REJECT,0.300,0.700,High" ++ newline
         ++ "1,a.wav,ACCEPT,0.900,0.100,Low".
Proof.
  destruct (C9_export_format Samples.noHugeNumbers
              (Samples.withHistory Samples.twoRows))
    as (lines & Hexport & Hlength & _).
  - discriminate.
  - exists lines. split; [exact Hexport|]. split; [exact Hlength|].
    assert (Htext :
      handleDownloadHistory Samples.noHugeNumbers
        (Samples.withHistory Samples.twoRows)
      = (Samples.withHistory Samples.twoRows,
         [download "voice_auth_session_history.csv" "text/csv"
            (("index,file,verdict,prob_real,prob_fake,risk" ++ newline)
             ++ "2,b.wav,REJECT,0.300,0.700,High" ++ newline
             ++ "1,a.wav,ACCEPT,0.900,0.100,Low")]))
      by (vm_compute; reflexivity).
    rewrite Htext in Hexport. injection Hexport as Hexport.
    symmetry. exact Hexport.
Defined.

(** C10 at a reply with [prob_real] left out and [prob_fake] null, and
    at replies that lack only one of the two. *)
Lemma C10_witness :
  (finalVerdict Samples.asciiLower Samples.noProbabilities 0.8 0.0
   = "SUSPICIOUS"
   /\ riskString Samples.noProbabilities 0.8 0.0 = "High")
  /\ (probReal Samples.noProbReal = 0
      /\ probFake Samples.noProbReal = 0.9)
  /\ (probFake Samples.noProbFake = 0
      /\ probReal Samples.noProbFake = 0.9).
Proof.
  destruct (C10_missing_probabilities Samples.asciiLower
              (Samples.selected "a.wav") "a.wav" 200 Samples.noProbabilities
              eq_refl)
    as (_ & _ & _ & _ & Hboth & _).
  destruct (C10_missing_probabilities Samples.asciiLower
              (Samples.selected "a.wav") "a.wav" 200 Samples.noProbReal
              eq_refl)
    as (Hreal & _ & _ & Hkept & _).
  destruct (C10_missing_probabilities Samples.asciiLower
              (Samples.selected "a.wav") "a.wav" 200 Samples.noProbFake
              eq_refl)
    as (_ & Hfake & Hkept' & _).
  split; [exact (Hboth eq_refl eq_refl)|]. split.
  - split; [exact (proj1 (Hreal eq_refl)) | exact (Hkept 0.9 eq_refl)].
  - split; [exact (proj1 (Hfake eq_refl)) | exact (Hkept' 0.9 eq_refl)].
Defined.

(** The four scenarios of the specification, and the text exported for a
    history of two rows. *)
Example scenario_1 :
  let data :=
    {| Data.prob_real := Val 0.9; Data.prob_fake := Val 0.1;
       Data.verdict := Val "real"; Data.iso_score := Val 0.5;
       Data.similarity := Null; Data.has_enrollment := Val false |} in
  (finalVerdict Samples.asciiLower data 0.8 0.0, reasons data 0.8 0.0,
   riskString data 0.8 0.0)
  = ("ACCEPT", [], "Low").
Proof. reflexivity. Qed.

Example scenario_2 :
  (finalVerdict Samples.asciiLower Samples.fake 0.8 0.0,
   riskString Samples.fake 0.8 0.0)
  = ("REJECT", "High").
Proof. reflexivity. Qed.

Example scenario_3 :
  (finalVerdict Samples.asciiLower Samples.allFail 0.8 0.0,
   riskScore Samples.allFail 0.8 0.0, riskString Samples.allFail 0.8 0.0)
  = ("SUSPICIOUS", 3%N, "High").
Proof. reflexivity. Qed.

Example scenario_4 :
  handleDownloadHistory Samples.noHugeNumbers State.initial
  = (State.initial, [alert "No history to download."]).
Proof. reflexivity. Qed.

Example export_two_rows :
  csv Samples.noHugeNumbers Samples.twoRows
  = "index,file,verdict,prob_real,prob_fake,risk" ++ newline
    ++ "2,b.wav,REJECT,0.300,0.700,High" ++ newline
    ++ "1,a.wav,ACCEPT,0.900,0.100,Low".
Proof. vm_compute. reflexivity. Qed.

(** A missing anomaly score is not compared as zero: under a threshold of
    0.5 a score of 0 fails the check, [null] and [undefined] do not.
    Without enrollment a similarity of 0.1 does not fail the mismatch
    check. *)
Example missing_is_not_zero :
  let reply iso :=
    {| Data.prob_real := Val 0.9; Data.prob_fake := Val 0.1;
       Data.verdict := Val "real"; Data.iso_score := iso;
       Data.similarity := Null; Data.has_enrollment := Val false |} in
  (anomalous (reply (Val 0)) 0.5, anomalous (reply Null) 0.5,
   anomalous (reply Absent) 0.5, mismatch Samples.bare 0.8)
  = (true, false, false, false).
Proof. reflexivity. Qed.

(** The superseded scoring of the first revision does not have the hard
    rule: a lone [prob_real] below 0.5 is rated Medium there. *)
Example rev1_has_no_hard_rule :
  (probReal Samples.fake <? 0.5) = true
  /\ riskString_rev1 Samples.fake 0.8 0.0 = "Medium"
  /\ riskString Samples.fake 0.8 0.0 = "High".
Proof. repeat split. Qed.

(** Why C2 leaves NaN out: no JSON number is NaN, and on NaN the two
    [>=] tests of the code both fail, which adds 2 where the [<] tests of
    the specification add 0. *)
Example nan_scores_two :
  let data :=
    {| Data.prob_real := Val nan; Data.prob_fake := Val 0.1;
       Data.verdict := Val "real"; Data.iso_score := Null;
       Data.similarity := Null; Data.has_enrollment := Val false |} in
  (riskScore data 0.8 0.0, Spec.riskScore (probReal data) false false,
   riskString data 0.8 0.0)
  = (2%N, 0%N, "Medium").
Proof. reflexivity. Qed.

(** Outside fixed notation: a value that is not finite is printed by
    name. *)
Example toFixed_outside_fixed_notation :
  (fixedNotation infinity, toFixed Samples.noHugeNumbers 3 infinity,
   toFixed Samples.noHugeNumbers 3 nan)
  = (false, "Infinity", "NaN").
Proof. reflexivity. Qed.

(** Rounding is on the exact binary64 value, halves upwards: 1.0005 is
    stored just below the half and 0.0005 just above it. *)
Example toFixed_rounds_the_stored_value :
  (toFixed Samples.noHugeNumbers 3 1.0005,
   toFixed Samples.noHugeNumbers 3 0.0005,
   toFixed Samples.noHugeNumbers 3 (-0.0001),
   toFixed Samples.noHugeNumbers 3 0,
   toFixed Samples.noHugeNumbers 3 1e20)
  = ("1.000", "0.001", "-0.000", "0.000", "100000000000000000000.000").
Proof. vm_compute. reflexivity. Qed.

(** ** The further properties at concrete inputs *)

(** X1 at scenario 3 with both sliders moved up. *)
Lemma X1_witness :
  incl (reasons Samples.allFail 0.8 0.0) (reasons Samples.allFail 0.9 0.5)
  /\ (riskScore Samples.allFail 0.8 0.0
      <= riskScore Samples.allFail 0.9 0.5)%N.
Proof.
  destruct (X1_higher_thresholds_flag_more Samples.asciiLower
              Samples.allFail 0.8 0.9 0.0 0.5 eq_refl eq_refl)
    as (Hreasons & Hscore & _).
  split; assumption.
Defined.

(** X3 at a reply with [prob_real] 0.9 and no failed check. *)
Lemma X3_witness : riskString Samples.bare 0.8 0.0 = "Low".
Proof.
  exact (X3_accepted_is_low_risk Samples.asciiLower Samples.bare 0.8 0.0
           eq_refl eq_refl).
Defined.

(** X8 at a first analysis: the row is numbered 1. *)
Lemma X8_witness :
  exists older : list string,
    handleDownloadHistory Samples.noHugeNumbers
      (fst (handleAnalyze Samples.asciiLower (Samples.selected "a.wav")
              (Replied true 200 (inr Samples.bare))))
    = (fst (handleAnalyze Samples.asciiLower (Samples.selected "a.wav")
              (Replied true 200 (inr Samples.bare))),
       [download "voice_auth_session_history.csv" "text/csv"
          (join newline
             ("index,file,verdict,prob_real,prob_fake,risk"
              :: "1,a.wav,ACCEPT,0.900,0.100,Low" :: older))])
    /\ List.length older = 0%nat.
Proof.
  exact (X8_export_after_analysis Samples.asciiLower Samples.noHugeNumbers
           (Samples.selected "a.wav") "a.wav" 200 Samples.bare eq_refl).
Defined.

(** X13 from the mounted page: five presses on minus end at 50%. *)
Lemma X13_witness :
  zoomLabel Samples.noHugeNumbers
    (run Samples.asciiLower Samples.noHugeNumbers Page.initial
       [ZoomOut; ZoomOut; ZoomOut; ZoomOut; ZoomOut])
  = "50%"
  /\ In (Page.zoom
           (run Samples.asciiLower Samples.noHugeNumbers Page.initial
              [ZoomOut; ZoomOut; ZoomOut; ZoomOut; ZoomOut])) zoomLevels.
Proof.
  split; [reflexivity|].
  apply (X13_zoom_stays_in_range Samples.asciiLower Samples.noHugeNumbers
           [ZoomOut; ZoomOut; ZoomOut; ZoomOut; ZoomOut] Page.initial).
  unfold zoomLevels. cbn. auto 20.
Defined.

(** X14 from the mounted page, which has neither file nor preview. *)
Lemma X14_witness :
  previewMatchesFile
    (run Samples.asciiLower Samples.noHugeNumbers Page.initial
       [ExampleChosen key_fake_tts; LoadExample (LoadReplied true) "blob:1";
        FileChanged None "blob:2"]).
Proof.
  apply (X14_preview_follows_file Samples.asciiLower Samples.noHugeNumbers
           [ExampleChosen key_fake_tts;
            LoadExample (LoadReplied true) "blob:1";
            FileChanged None "blob:2"] Page.initial).
  unfold previewMatchesFile. cbn. tauto.
Defined.

(** X15 at the newer of the two sample rows. *)
Lemma X15_witness :
  exists cells : list string,
    nth_error (tableRows Samples.noHugeNumbers Samples.twoRows) 0
    = Some cells
    /\ nth 3 cells "" = "0.30" /\ nth 4 cells "" = "0.70".
Proof.
  destruct (X15_table_shows_two_decimals Samples.noHugeNumbers
              Samples.twoRows 0
              {| Entry.file := "b.wav"; Entry.verdict := "REJECT";
                 Entry.probReal := 0.3; Entry.probFake := 0.7;
                 Entry.risk := "High" |} eq_refl eq_refl eq_refl)
    as (cells & Hcells & Hreal & Hfake & _).
  exists cells. repeat split; assumption.
Defined.

(** X16 at a page with a stored result, after the sliders are moved. *)
Lemma X16_witness :
  option_map Merged.similarity_threshold_used
    (State.result
       (Page.app
          (run Samples.asciiLower Samples.noHugeNumbers
             (run Samples.asciiLower Samples.noHugeNumbers Page.initial
                [FileChanged (Some "a.wav") "blob:1";
                 Analyze (Replied true 200 (inr Samples.allFail))])
             [SimilarityMoved 0.95; AnomalyMoved 1.0; ZoomIn;
              DownloadHistory])))
  = Some 0.8.
Proof.
  destruct (X16_result_outlives_the_sliders Samples.asciiLower
              Samples.noHugeNumbers
              [SimilarityMoved 0.95; AnomalyMoved 1.0; ZoomIn;
               DownloadHistory]
              (run Samples.asciiLower Samples.noHugeNumbers Page.initial
                 [FileChanged (Some "a.wav") "blob:1";
                  Analyze (Replied true 200 (inr Samples.allFail))]))
    as [Hresult _].
  - repeat constructor; discriminate.
  - rewrite Hresult. reflexivity.
Defined.

(** X17 at two analyses of the same file. *)
Lemma X17_witness :
  map Entry.verdict
    (State.history
       (analyseAll Samples.asciiLower (Samples.selected "a.wav")
          [Samples.bare; Samples.fake]))
  = ["REJECT"; "ACCEPT"].
Proof.
  rewrite (X17_history_is_newest_first Samples.asciiLower "a.wav"
             [Samples.bare; Samples.fake] (Samples.selected "a.wav")
             eq_refl).
  reflexivity.
Defined.
